(** * Verification of the governance decision engine (governance_gate)

    Shallow embedding of the core of [governance_gate]: the dynamic Python
    values that flow through evidence and policies, the [DecisionAction]
    precedence, the four gates, the policy evaluator and its schema
    validator, the pipeline and the [Decision] record. *)

From Stdlib Require Import String Ascii List Bool ZArith QArith Lia Permutation.
Import ListNotations.
Open Scope string_scope.
Set Warnings "-register-all".
Open Scope list_scope.

(* ------------------------------------------------------------------ *)
(** ** Python values *)

(** The values that evidence maps, intent parameters and policy documents
    carry (YAML/JSON shaped, string-keyed maps).  Finite floats are
    modelled as rationals, which compare exactly as the floats do. *)
Inductive pyval : Type :=
| VNone
| VBool (b : bool)
| VInt (z : Z)
| VFloat (q : Q)
| VStr (s : string)
| VList (l : list pyval)
| VDict (d : list (string * pyval)).

Definition dict := list (string * pyval).

(** [d.get(k)]: a Python dict has unique keys; the first binding is the one. *)
Fixpoint dict_get {A} (d : list (string * A)) (k : string) : option A :=
  match d with
  | [] => None
  | (k', v) :: d' => if String.eqb k k' then Some v else dict_get d' k
  end.

Definition dict_get_default {A} (d : list (string * A)) (k : string) (dflt : A) : A :=
  match dict_get d k with Some v => v | None => dflt end.

(** [d[k] = v] on an insertion-ordered dict: an existing key keeps its
    position, a new key goes to the end. *)
Fixpoint dict_set {A} (d : list (string * A)) (k : string) (v : A) : list (string * A) :=
  match d with
  | [] => [(k, v)]
  | (k', v') :: d' => if String.eqb k k' then (k, v) :: d' else (k', v') :: dict_set d' k v
  end.

(** Numeric view: [bool] is a subclass of [int] in Python. *)
Definition py_num (v : pyval) : option Q :=
  match v with
  | VBool b => Some (if b then 1 else 0)%Q
  | VInt z => Some (inject_Z z)
  | VFloat q => Some q
  | _ => None
  end.

Definition Qltb (x y : Q) : bool := negb (Qle_bool y x).

(** [bool(v)] *)
Definition truthy (v : pyval) : bool :=
  match v with
  | VNone => false
  | VBool b => b
  | VInt z => negb (Z.eqb z 0)
  | VFloat q => negb (Qeq_bool q 0)
  | VStr s => negb (String.eqb s "")
  | VList l => match l with [] => false | _ => true end
  | VDict d => match d with [] => false | _ => true end
  end.

(** [a == b] *)
Fixpoint py_eq (a b : pyval) {struct a} : bool :=
  match py_num a, py_num b with
  | Some x, Some y => Qeq_bool x y
  | _, _ =>
    match a, b with
    | VNone, VNone => true
    | VStr s, VStr t => String.eqb s t
    | VList l, VList m =>
        (fix go (l m : list pyval) : bool :=
           match l, m with
           | [], [] => true
           | x :: l', y :: m' => py_eq x y && go l' m'
           | _, _ => false
           end) l m
    | VDict d, VDict e =>
        Nat.eqb (length d) (length e) &&
        (fix go (d : list (string * pyval)) : bool :=
           match d with
           | [] => true
           | (k, x) :: d' =>
               match dict_get e k with
               | Some y => py_eq x y && go d'
               | None => false
               end
           end) d
    | _, _ => false
    end
  end.

(** [x in l] for a list or set given by its elements. *)
Definition py_in (x : pyval) (l : list pyval) : bool := existsb (py_eq x) l.

(** [a < b]; [None] is the [TypeError] raised for unordered operand types. *)
Fixpoint py_lt (a b : pyval) {struct a} : option bool :=
  match py_num a, py_num b with
  | Some x, Some y => Some (Qltb x y)
  | _, _ =>
    match a, b with
    | VStr s, VStr t => Some (String.ltb s t)
    | VList l, VList m =>
        (fix go (l m : list pyval) : option bool :=
           match l, m with
           | [], [] => Some false
           | [], _ :: _ => Some true
           | _ :: _, [] => Some false
           | x :: l', y :: m' => if py_eq x y then go l' m' else py_lt x y
           end) l m
    | _, _ => None
    end
  end.

(** [a <= b] (for numbers, the only operands the evaluator compares). *)
Definition py_le (a b : pyval) : option bool :=
  match py_num a, py_num b with
  | Some x, Some y => Some (Qle_bool x y)
  | _, _ =>
    match py_lt a b with
    | Some true => Some true
    | Some false => Some (py_eq a b)
    | None => None
    end
  end.

(** [isinstance(v, (int, float))] *)
Definition is_number (v : pyval) : bool :=
  match v with VBool _ | VInt _ | VFloat _ => true | _ => false end.

(** Hashable values (the elements a Python set may hold). *)
Definition hashable (v : pyval) : bool :=
  match v with VList _ | VDict _ => false | _ => true end.

(** Iterating a value into a set ([set(v)] or [s.update(v)]): a list gives
    its elements, a string its characters, a dict its keys; other values
    raise [TypeError], and so do unhashable elements. *)
Fixpoint string_chars (s : string) : list pyval :=
  match s with
  | EmptyString => []
  | String c s' => VStr (String c EmptyString) :: string_chars s'
  end.

Definition py_iter_hashable (v : pyval) : option (list pyval) :=
  match v with
  | VList l => if forallb hashable l then Some l else None
  | VStr s => Some (string_chars s)
  | VDict d => Some (map (fun kv => VStr (fst kv)) d)
  | _ => None
  end.

(** [s.update(xs)] on a set kept in iteration order. *)
Definition set_update (s xs : list pyval) : list pyval :=
  fold_left (fun acc x => if py_in x acc then acc else app acc [x]) xs s.

(** [set(xs)] *)
Definition py_set (v : pyval) : option (list pyval) :=
  option_map (set_update []) (py_iter_hashable v).

(** [str.lower()] on ASCII text. *)
Definition ascii_lower (c : ascii) : ascii :=
  let n := nat_of_ascii c in
  if Nat.leb 65 n && Nat.leb n 90 then ascii_of_nat (n + 32)%nat else c.

Fixpoint str_lower (s : string) : string :=
  match s with
  | EmptyString => EmptyString
  | String c s' => String (ascii_lower c) (str_lower s')
  end.

Definition ascii_upper (c : ascii) : ascii :=
  let n := nat_of_ascii c in
  if Nat.leb 97 n && Nat.leb n 122 then ascii_of_nat (n - 32)%nat else c.

Fixpoint str_upper (s : string) : string :=
  match s with
  | EmptyString => EmptyString
  | String c s' => String (ascii_upper c) (str_upper s')
  end.

(** [k in s] on strings (substring test). *)
Fixpoint str_contains (k s : string) : bool :=
  String.prefix k s ||
  match s with
  | EmptyString => false
  | String _ s' => str_contains k s'
  end.

(** [keyword in text] where the keyword comes from a configurable set:
    a non-string keyword raises [TypeError]. *)
Definition py_substr (k : pyval) (text : string) : option bool :=
  match k with VStr ks => Some (str_contains ks text) | _ => None end.

(** [s.endswith(t)] *)
Definition str_ends_with (s t : string) : bool :=
  let n := String.length s in
  let m := String.length t in
  Nat.leb m n && String.eqb (String.substring (n - m) m s) t.

(** [s.split(sep)] for a one-character separator. *)
Fixpoint split_on (sep : ascii) (s : string) : list string :=
  match s with
  | EmptyString => [EmptyString]
  | String c s' =>
      match split_on sep s' with
      | [] => []
      | w :: ws => if Ascii.eqb c sep then EmptyString :: w :: ws else String c w :: ws
      end
  end.

(** [s.split()] on ASCII whitespace: the non-empty words. *)
Definition is_space (c : ascii) : bool :=
  let n := nat_of_ascii c in
  Nat.eqb n 32 || (Nat.leb 9 n && Nat.leb n 13).

Fixpoint words_acc (cur : string) (s : string) : list string :=
  match s with
  | EmptyString => if String.eqb cur "" then [] else [cur]
  | String c s' =>
      if is_space c
      then (if String.eqb cur "" then [] else [cur]) ++ words_acc "" s'
      else words_acc (cur ++ String c EmptyString) s'
  end.

Definition py_split_words (s : string) : list string := words_acc "" s.

(** Decimal rendering of a count, as [f"{n}"] prints it. *)
Fixpoint digits_of (fuel n : nat) (acc : string) : string :=
  match fuel with
  | O => acc
  | S fuel' =>
      let d := ascii_of_nat (48 + Nat.modulo n 10) in
      let acc' := String d acc in
      if Nat.ltb n 10 then acc' else digits_of fuel' (Nat.div n 10) acc'
  end.

Definition nat_to_string (n : nat) : string := digits_of (S n) n "".

(** Option monad for code that may raise. *)
Notation "'let*' x ':=' c 'in' k" :=
  (match c with Some x => k | None => None end)
  (at level 200, x name, c at level 100, k at level 200).

(* ------------------------------------------------------------------ *)
(** ** core/types.py *)

Inductive DecisionAction : Type := ALLOW | RESTRICT | ESCALATE | STOP.

Definition action_value (a : DecisionAction) : string :=
  match a with
  | ALLOW => "ALLOW" | RESTRICT => "RESTRICT" | ESCALATE => "ESCALATE" | STOP => "STOP"
  end.

(** [DecisionAction(s)]: [None] is the [ValueError] of an unknown name. *)
Definition action_of_value (s : string) : option DecisionAction :=
  if String.eqb s "ALLOW" then Some ALLOW
  else if String.eqb s "RESTRICT" then Some RESTRICT
  else if String.eqb s "ESCALATE" then Some ESCALATE
  else if String.eqb s "STOP" then Some STOP
  else None.

Definition precedence (a : DecisionAction) : nat :=
  match a with ALLOW => 0 | RESTRICT => 1 | ESCALATE => 2 | STOP => 3 end.

Definition dominates (self other : DecisionAction) : bool :=
  Nat.ltb (precedence other) (precedence self).

Record Intent : Type := mkIntent {
  intent_name : string;
  intent_confidence : Q;
  parameters : dict
}.

(** [Intent.__post_init__]: confidence must lie in [0, 1]. *)
Definition make_intent (name : string) (confidence : Q) (params : dict) : option Intent :=
  if Qle_bool 0 confidence && Qle_bool confidence 1
  then Some (mkIntent name confidence params) else None.

Record Context : Type := mkContext {
  user_id : option string;
  channel : option string;
  session_id : option string;
  ctx_metadata : dict
}.

Record Evidence : Type := mkEvidence {
  facts : dict;
  rag : dict;
  topic : dict;
  ev_metadata : dict
}.

Definition opt_str (o : option string) : pyval :=
  match o with Some s => VStr s | None => VNone end.

(** [Evidence.get(path, default)].  The first segment selects one of the
    four namespaces (the attributes a dotted evidence path names); further
    segments walk nested dicts and fall back to the default. *)
Fixpoint walk_path (v : pyval) (parts : list string) (default : pyval) : pyval :=
  match parts with
  | [] => v
  | p :: rest =>
      match v with
      | VDict d => match dict_get d p with
                   | Some v' => walk_path v' rest default
                   | None => default
                   end
      | _ => default
      end
  end.

Definition evidence_get (ev : Evidence) (path : string) (default : pyval) : pyval :=
  match split_on "." path with
  | [] => default
  | p :: rest =>
      let root :=
        if String.eqb p "facts" then Some (facts ev)
        else if String.eqb p "rag" then Some (rag ev)
        else if String.eqb p "topic" then Some (topic ev)
        else if String.eqb p "metadata" then Some (ev_metadata ev)
        else None in
      match root with
      | Some d => walk_path (VDict d) rest default
      | None => default
      end
  end.

(* ------------------------------------------------------------------ *)
(** ** policy/evaluator.py *)

Record PolicyEvaluator : Type := mkPolicyEvaluator {
  policy : dict
}.

(** [PolicyEvaluator.get_gate_config]: [policy.get("gates", {}).get(name, {})];
    [None] is the [AttributeError] of a [gates] entry that is not a dict. *)
Definition get_gate_config (p : PolicyEvaluator) (gate_name : string) : option pyval :=
  match dict_get_default (policy p) "gates" (VDict []) with
  | VDict g => Some (dict_get_default g gate_name (VDict []))
  | _ => None
  end.

Section ApplyOperator.

(** [re.search(pattern, text)]: [None] is [re.error]. *)
Variable re_search : string -> string -> option bool.

(** [PolicyEvaluator._apply_operator]; [None] is an exception raised by
    a comparison ([TypeError]). *)
Definition apply_operator (operator : string) (value expected : pyval) : option bool :=
  if String.eqb operator "equals" then Some (py_eq value expected)
  else if String.eqb operator "not_equals" then Some (negb (py_eq value expected))
  else if String.eqb operator "in" then
    Some (match expected with VList l => py_in value l | _ => false end)
  else if String.eqb operator "not_in" then
    Some (match expected with VList l => negb (py_in value l) | _ => true end)
  else if String.eqb operator "contains" then
    Some (match value, expected with
          | VStr v, VStr e => str_contains e v
          | VList v, (VStr _ | VInt _ | VFloat _ | VBool _) => py_in expected v
          | _, _ => false
          end)
  else if String.eqb operator "not_contains" then
    Some (negb (match value, expected with
                | VStr v, VStr e => str_contains e v
                | VList v, (VStr _ | VInt _ | VFloat _ | VBool _) => py_in expected v
                | _, _ => false
                end))
  else if String.eqb operator "any_of" then
    Some (match value, expected with
          | VList v, VList e => existsb (fun item => py_in item e) v
          | _, VList e => py_in value e
          | _, _ => false
          end)
  else if String.eqb operator "all_of" then
    Some (match value, expected with
          | VList v, VList e => forallb (fun item => py_in item e) v
          | _, VList e => py_in value e
          | _, _ => false
          end)
  else if String.eqb operator "gt" then
    (if is_number value then py_lt expected value else Some false)
  else if String.eqb operator "gte" then
    (if is_number value then py_le expected value else Some false)
  else if String.eqb operator "lt" then
    (if is_number value then py_lt value expected else Some false)
  else if String.eqb operator "lte" then
    (if is_number value then py_le value expected else Some false)
  else if String.eqb operator "between" then
    match expected with
    | VList [lo; hi] =>
        if is_number value then
          (* expected[0] <= value <= expected[1], chained and short-circuit *)
          match py_le lo value with
          | Some true => py_le value hi
          | Some false => Some false
          | None => None
          end
        else Some false
    | _ => Some false
    end
  else if String.eqb operator "is_true" then
    Some (match value with VBool true => true | _ => false end)
  else if String.eqb operator "is_false" then
    Some (match value with VBool false => true | _ => false end)
  else if String.eqb operator "is_null" then
    Some (match value with VNone => true | _ => false end)
  else if String.eqb operator "is_not_null" then
    Some (match value with VNone => false | _ => true end)
  else if String.eqb operator "matches" then
    Some (match value, expected with
          | VStr v, VStr e => match re_search e v with Some b => b | None => false end
          | _, _ => false
          end)
  else if String.eqb operator "starts_with" then
    Some (match value, expected with
          | VStr v, VStr e => String.prefix e v
          | _, _ => false
          end)
  else if String.eqb operator "ends_with" then
    Some (match value, expected with
          | VStr v, VStr e => str_ends_with v e
          | _, _ => false
          end)
  else Some false.

End ApplyOperator.

(* ------------------------------------------------------------------ *)
(** ** policy/schema_validation.py *)

Definition REQUIRED_TOP_LEVEL_KEYS := ["version"; "name"; "rules"].
Definition REQUIRED_RULE_KEYS := ["name"; "conditions"; "action"].

Definition SUPPORTED_OPERATORS : list string :=
  ["equals"; "not_equals"; "in"; "not_in"; "contains"; "not_contains"; "any_of"; "all_of";
   "gt"; "gte"; "lt"; "lte"; "between";
   "is_true"; "is_false"; "is_null"; "is_not_null";
   "matches"; "starts_with"; "ends_with"].

Definition SUPPORTED_ACTIONS : list string := ["ALLOW"; "RESTRICT"; "ESCALATE"; "STOP"].

Definition str_mem (s : string) (l : list string) : bool := existsb (String.eqb s) l.

(** The individual error messages the validator collects; each
    constructor stands for the f-string appended at one place. *)
Inductive schema_error : Type :=
| MissingTopKey (key : string)
| VersionNotString
| UnsupportedVersion (v : string)
| PolicyNameInvalid
| RulesNotList
| RuleMissingKey (path : nat) (key : string)
| RuleNameInvalid (path : nat)
| RuleInvalidAction (path : nat) (a : pyval)
| ConditionsNotDict (path : nat)
| ConditionNotDict (path : nat) (field : string)
| UnsupportedOperator (path : nat) (field op : string)
| RequiresNumeric (path : nat) (field op : string)
| RequiresList (path : nat) (field op : string)
| RequiresBool (path : nat) (field op : string)
| EnabledNotBool (path : nat)
| PriorityInvalid (path : nat)
| GatesNotDict
| GateConfigNotDict (gate : string).

Record PolicyValidationError : Type := mkPolicyValidationError {
  pve_message : string;
  pve_path : string
}.

(** [str(e)] *)
Definition pve_str (e : PolicyValidationError) : string :=
  if String.eqb (pve_path e) "" then pve_message e
  else pve_path e ++ ": " ++ pve_message e.

(** Outcome of [validate_policy_schema]: a returned list, or the raised
    [PolicyValidationError]. *)
Inductive validation_outcome : Type :=
| Validated (errors : list schema_error)
| ValidationRaised (e : PolicyValidationError).

(** [key in container] for the values a rule may be. *)
Definition py_contains_key (container : pyval) (k : string) : option bool :=
  match container with
  | VDict d => Some (match dict_get d k with Some _ => true | None => false end)
  | VStr s => Some (str_contains k s)
  | VList l => Some (py_in (VStr k) l)
  | _ => None
  end.

(** [container[key]] with a string key: only dicts support it here. *)
Definition py_getitem (container : pyval) (k : string) : option pyval :=
  match container with
  | VDict d => dict_get d k
  | _ => None
  end.

(** [not isinstance(s, str) or not s.strip()] *)
Definition not_nonempty_str (v : pyval) : bool :=
  match v with
  | VStr s => match py_split_words s with [] => true | _ => false end
  | _ => true
  end.

Definition validate_operator (path : nat) (field : string) (operator : string) (value : pyval)
  : list schema_error :=
  (if str_mem operator SUPPORTED_OPERATORS then [] else [UnsupportedOperator path field operator])
  ++
  (if str_mem operator ["gt"; "gte"; "lt"; "lte"; "between"] then
     (if is_number value then [] else [RequiresNumeric path field operator])
   else if str_mem operator ["in"; "not_in"; "any_of"; "all_of"] then
     (match value with VList _ => [] | _ => [RequiresList path field operator] end)
   else if str_mem operator ["is_true"; "is_false"; "is_null"; "is_not_null"] then
     (match value with VBool _ => [] | _ => [RequiresBool path field operator] end)
   else []).

(** [_validate_conditions] *)
Definition validate_conditions (conditions : dict) (path : nat) : list schema_error :=
  flat_map (fun fc =>
    let '(field, condition) := fc in
    match condition with
    | VDict ops => flat_map (fun ov => validate_operator path field (fst ov) (snd ov)) ops
    | _ => [ConditionNotDict path field]
    end) conditions.

(** [_validate_rule]; [None] is the [TypeError] raised on a rule that is
    not a dict and does not support the key tests. *)
Definition validate_rule (rule : pyval) (path : nat) : option (list schema_error) :=
  let* missing :=
    fold_right (fun key acc =>
      let* present := py_contains_key rule key in
      let* rest := acc in
      Some ((if present then [] else [RuleMissingKey path key]) ++ rest))
      (Some []) REQUIRED_RULE_KEYS in
  let* has_name := py_contains_key rule "name" in
  let* e_name :=
    if has_name then
      let* n := py_getitem rule "name" in
      Some (if not_nonempty_str n then [RuleNameInvalid path] else [])
    else Some [] in
  let* has_action := py_contains_key rule "action" in
  let* e_action :=
    if has_action then
      let* a := py_getitem rule "action" in
      (* membership in a set: unhashable values raise TypeError *)
      if hashable a then
        Some (if py_in a (map VStr SUPPORTED_ACTIONS) then [] else [RuleInvalidAction path a])
      else None
    else Some [] in
  let* has_conditions := py_contains_key rule "conditions" in
  let* e_conditions :=
    if has_conditions then
      let* c := py_getitem rule "conditions" in
      Some (match c with
            | VDict cs => validate_conditions cs path
            | _ => [ConditionsNotDict path]
            end)
    else Some [] in
  let* has_enabled := py_contains_key rule "enabled" in
  let* e_enabled :=
    if has_enabled then
      let* en := py_getitem rule "enabled" in
      Some (match en with VBool _ => [] | _ => [EnabledNotBool path] end)
    else Some [] in
  let* has_priority := py_contains_key rule "priority" in
  let* e_priority :=
    if has_priority then
      let* pr := py_getitem rule "priority" in
      Some (match pr with
            | VBool _ => []
            | VInt z => if Z.ltb z 0 then [PriorityInvalid path] else []
            | _ => [PriorityInvalid path]
            end)
    else Some [] in
  Some (missing ++ e_name ++ e_action ++ e_conditions ++ e_enabled ++ e_priority).

Fixpoint validate_rules (rules : list pyval) (i : nat) : option (list schema_error) :=
  match rules with
  | [] => Some []
  | r :: rs =>
      let* e := validate_rule r i in
      let* es := validate_rules rs (S i) in
      Some (e ++ es)
  end.

Definition has_key (d : dict) (k : string) : bool :=
  match dict_get d k with Some _ => true | None => false end.

(** [validate_policy_schema]: [None] is a [TypeError] escaping a rule check. *)
Definition validate_policy_schema (p : dict) : option validation_outcome :=
  let e_top := flat_map (fun key => if has_key p key then [] else [MissingTopKey key])
                        REQUIRED_TOP_LEVEL_KEYS in
  let e_version :=
    match dict_get p "version" with
    | Some (VStr v) => if String.prefix "1." v then [] else [UnsupportedVersion v]
    | Some _ => [VersionNotString]
    | None => []
    end in
  let e_name :=
    match dict_get p "name" with
    | Some n => if not_nonempty_str n then [PolicyNameInvalid] else []
    | None => []
    end in
  let* e_rules :=
    match dict_get p "rules" with
    | Some (VList rs) => validate_rules rs 0
    | Some _ => Some [RulesNotList]
    | None => Some []
    end in
  let e_gates :=
    match dict_get p "gates" with
    | Some (VDict gs) =>
        flat_map (fun gc => match snd gc with VDict _ => [] | _ => [GateConfigNotDict (fst gc)] end) gs
    | Some _ => [GatesNotDict]
    | None => []
    end in
  let errors := e_top ++ e_version ++ e_name ++ e_rules ++ e_gates in
  match errors with
  | [] => Some (Validated [])
  | _ => Some (ValidationRaised
                 (mkPolicyValidationError
                    ("Policy validation failed with " ++ nat_to_string (length errors) ++ " error(s)")
                    ""))
  end.

(* ------------------------------------------------------------------ *)
(** ** core/decision.py *)

Record GateDecision : Type := mkGateDecision {
  gd_gate_name : string;
  gd_suggested_action : option string;
  gd_rationale : string;
  gd_config_used : option pyval;
  gd_input_summary : option pyval
}.

Record Decision : Type := mkDecision {
  d_action : DecisionAction;
  d_rationale : string;
  d_evidence_summary : pyval;
  d_trace_id : string;
  d_required_steps : list string;
  d_timestamp : string;
  d_gate_contributions : list (string * string);
  d_gate_decisions : list (string * GateDecision);
  d_policy_version : pyval;
  d_policy_name : pyval;
  d_decision_code : option string;
  d_final_gate : option string
}.

(** [Decision(action=..., rationale=..., evidence_summary=...)]: the
    [trace_id] and [timestamp] factories ([uuid4()], the clock) are the
    values passed in. *)
Definition new_decision (a : DecisionAction) (r : string) (es : pyval)
    (trace_id timestamp : string) : Decision :=
  mkDecision a r es trace_id [] timestamp [] [] VNone VNone None None.

Definition set_action (d : Decision) (a : DecisionAction) : Decision :=
  mkDecision a (d_rationale d) (d_evidence_summary d) (d_trace_id d) (d_required_steps d)
    (d_timestamp d) (d_gate_contributions d) (d_gate_decisions d) (d_policy_version d)
    (d_policy_name d) (d_decision_code d) (d_final_gate d).

Definition set_rationale (d : Decision) (r : string) : Decision :=
  mkDecision (d_action d) r (d_evidence_summary d) (d_trace_id d) (d_required_steps d)
    (d_timestamp d) (d_gate_contributions d) (d_gate_decisions d) (d_policy_version d)
    (d_policy_name d) (d_decision_code d) (d_final_gate d).

Definition set_final_gate (d : Decision) (fg : option string) : Decision :=
  mkDecision (d_action d) (d_rationale d) (d_evidence_summary d) (d_trace_id d)
    (d_required_steps d) (d_timestamp d) (d_gate_contributions d) (d_gate_decisions d)
    (d_policy_version d) (d_policy_name d) (d_decision_code d) fg.

(** [Decision.set_decision_code] *)
Definition set_decision_code (d : Decision) (code : string) : Decision :=
  mkDecision (d_action d) (d_rationale d) (d_evidence_summary d) (d_trace_id d)
    (d_required_steps d) (d_timestamp d) (d_gate_contributions d) (d_gate_decisions d)
    (d_policy_version d) (d_policy_name d) (Some code) (d_final_gate d).

(** [Decision.set_policy_info] *)
Definition set_policy_info (d : Decision) (name version : pyval) : Decision :=
  mkDecision (d_action d) (d_rationale d) (d_evidence_summary d) (d_trace_id d)
    (d_required_steps d) (d_timestamp d) (d_gate_contributions d) (d_gate_decisions d)
    version name (d_decision_code d) (d_final_gate d).

(** [Decision.add_gate_decision] *)
Definition add_gate_decision (d : Decision) (gate_name : string) (suggested : option string)
    (rationale : string) (config_used input_summary : option pyval) : Decision :=
  mkDecision (d_action d) (d_rationale d) (d_evidence_summary d) (d_trace_id d)
    (d_required_steps d) (d_timestamp d)
    (dict_set (d_gate_contributions d) gate_name rationale)
    (dict_set (d_gate_decisions d) gate_name
       (mkGateDecision gate_name suggested rationale config_used input_summary))
    (d_policy_version d) (d_policy_name d) (d_decision_code d) (d_final_gate d).

(** [Decision.override] *)
Definition override (d : Decision) (new_action : DecisionAction) (gate_name rationale : string)
    (config_used input_summary : option pyval) : Decision :=
  let d1 := set_action d new_action in
  let d2 := add_gate_decision d1 gate_name (Some (action_value new_action)) rationale
              config_used input_summary in
  set_rationale d2 rationale.

Fixpoint replace_spaces (s : string) : string :=
  match s with
  | EmptyString => EmptyString
  | String c s' => String (if Ascii.eqb c " " then "_"%char else c) (replace_spaces s')
  end.

(** [generate_decision_code] *)
Definition generate_decision_code (a : DecisionAction) (primary_gate reason_type : string) : string :=
  let gate_prefix :=
    if String.eqb primary_gate "fact_verifiability" then "FACTS"
    else if String.eqb primary_gate "uncertainty" then "UNCERTAINTY"
    else if String.eqb primary_gate "responsibility" then "RESPONSIBILITY"
    else if String.eqb primary_gate "safety" then "SAFETY"
    else "GOVERNANCE" in
  gate_prefix ++ "_" ++ str_upper (action_value a) ++ "_" ++ replace_spaces (str_upper reason_type).

Definition opt_pyval (o : option pyval) : pyval :=
  match o with Some v => v | None => VNone end.

Definition opt_string_val (o : option string) : pyval :=
  match o with Some s => VStr s | None => VNone end.

(** [GateDecision.to_dict] *)
Definition gate_decision_to_dict (gd : GateDecision) : pyval :=
  VDict [("gate_name", VStr (gd_gate_name gd));
         ("suggested_action", opt_string_val (gd_suggested_action gd));
         ("rationale", VStr (gd_rationale gd));
         ("config_used", opt_pyval (gd_config_used gd));
         ("input_summary", opt_pyval (gd_input_summary gd))].

(** [Decision.to_dict] *)
Definition to_dict (d : Decision) : pyval :=
  VDict [("action", VStr (action_value (d_action d)));
         ("rationale", VStr (d_rationale d));
         ("evidence_summary", d_evidence_summary d);
         ("trace_id", VStr (d_trace_id d));
         ("required_steps", VList (map VStr (d_required_steps d)));
         ("timestamp", VStr (d_timestamp d));
         ("gate_contributions", VDict (map (fun kv => (fst kv, VStr (snd kv))) (d_gate_contributions d)));
         ("gate_decisions", VDict (map (fun kv => (fst kv, gate_decision_to_dict (snd kv))) (d_gate_decisions d)));
         ("policy_version", d_policy_version d);
         ("policy_name", d_policy_name d);
         ("decision_code", opt_string_val (d_decision_code d));
         ("final_gate", opt_string_val (d_final_gate d))].

(** The record keeps the fields the dataclass annotates as [str] as
    strings: a payload with another type there is rejected ([None]), as
    are the [KeyError] and [ValueError] that [from_dict] raises. *)
Definition as_str (v : pyval) : option string :=
  match v with VStr s => Some s | _ => None end.

Definition as_opt_str (v : pyval) : option (option string) :=
  match v with VNone => Some None | VStr s => Some (Some s) | _ => None end.

Fixpoint as_str_list (l : list pyval) : option (list string) :=
  match l with
  | [] => Some []
  | v :: l' => let* s := as_str v in let* ss := as_str_list l' in Some (s :: ss)
  end.

Fixpoint as_str_dict (d : dict) : option (list (string * string)) :=
  match d with
  | [] => Some []
  | (k, v) :: d' => let* s := as_str v in let* r := as_str_dict d' in Some ((k, s) :: r)
  end.

Definition opt_of_pyval (v : pyval) : option pyval :=
  match v with VNone => None | _ => Some v end.

(** One [GateDecision(...)] rebuilt from its dict. *)
Definition gate_decision_from_dict (gd : pyval) : option GateDecision :=
  match gd with
  | VDict g =>
      let* gn := dict_get g "gate_name" in
      let* gn := as_str gn in
      let* sa := as_opt_str (dict_get_default g "suggested_action" VNone) in
      let* r := dict_get g "rationale" in
      let* r := as_str r in
      Some (mkGateDecision gn sa r (opt_of_pyval (dict_get_default g "config_used" VNone))
              (opt_of_pyval (dict_get_default g "input_summary" VNone)))
  | _ => None
  end.

Fixpoint restore_gate_decisions (acc : list (string * GateDecision)) (gds : dict)
  : option (list (string * GateDecision)) :=
  match gds with
  | [] => Some acc
  | (name, gdv) :: rest =>
      let* gd := gate_decision_from_dict gdv in
      restore_gate_decisions (dict_set acc name gd) rest
  end.

(** [Decision.from_dict]; [fresh_trace_id] and [now] are the values of
    [generate_trace_id()] and the clock, which Python evaluates as the
    [get] defaults on every call. *)
Definition from_dict (data : pyval) (fresh_trace_id now : string) : option Decision :=
  match data with
  | VDict m =>
      let* av := dict_get m "action" in
      let* avs := as_str av in
      let* a := action_of_value avs in
      let* r := dict_get m "rationale" in
      let* r := as_str r in
      let es := dict_get_default m "evidence_summary" (VDict []) in
      let* tid := as_str (dict_get_default m "trace_id" (VStr fresh_trace_id)) in
      let* steps := match dict_get_default m "required_steps" (VList []) with
                    | VList l => as_str_list l | _ => None end in
      let* ts := as_str (dict_get_default m "timestamp" (VStr now)) in
      let* gc := match dict_get_default m "gate_contributions" (VDict []) with
                 | VDict g => as_str_dict g | _ => None end in
      let pv := dict_get_default m "policy_version" VNone in
      let pn := dict_get_default m "policy_name" VNone in
      let* dc := as_opt_str (dict_get_default m "decision_code" VNone) in
      let* fg := as_opt_str (dict_get_default m "final_gate" VNone) in
      let* gds := match dict_get m "gate_decisions" with
                  | Some (VDict g) => restore_gate_decisions [] g
                  | Some _ => None
                  | None => Some []
                  end in
      Some (mkDecision a r es tid steps ts gc gds pv pn dc fg)
  | _ => None
  end.

(* ------------------------------------------------------------------ *)
(** ** core/pipeline.py *)

Section Pipeline.

(** The [Gate] interface.  [gate_evaluate] returns the gate instance as
    it is after the call (gates write policy overrides into their own
    fields) with the [(action, rationale)] pair; [None] is an exception. *)
Variable G : Type.
Variable gate_name : G -> string.
Variable gate_evaluate :
  G -> Intent -> Context -> Evidence -> option PolicyEvaluator ->
  option (G * (option DecisionAction * string)).
Variable get_config_snapshot : G -> pyval.
Variable get_input_summary : G -> Evidence -> pyval.

Record GovernancePipeline : Type := mkPipeline {
  gates : list G;
  default_action : DecisionAction
}.

(** [GovernancePipeline.__init__]: [default_action or DecisionAction.ALLOW]. *)
Definition make_pipeline (gs : list G) (default : option DecisionAction) : GovernancePipeline :=
  mkPipeline gs (match default with Some a => a | None => ALLOW end).

(** The local variables of the loop in [evaluate]. *)
Record loop_state : Type := mkLoop {
  st_decision : Decision;
  winning_gate : option string;
  primary_gate : option string;
  primary_reason_type : string
}.

(** [gate_rationale.split()[0] if gate_rationale else "override"];
    [None] is the [IndexError] of a blank rationale. *)
Definition reason_token (gate_rationale : string) : option string :=
  if String.eqb gate_rationale "" then Some "override"
  else match py_split_words gate_rationale with
       | w :: _ => Some w
       | [] => None
       end.

(** The body of the loop, after [gate.evaluate(...)] returned. *)
Definition fold_gate (ev : Evidence) (st : loop_state) (g : G)
    (res : option DecisionAction * string) : option loop_state :=
  let '(gate_action, gate_rationale) := res in
  let config_used := get_config_snapshot g in
  let input_summary := get_input_summary g ev in
  let d1 := add_gate_decision (st_decision st) (gate_name g)
              (option_map action_value gate_action) gate_rationale
              (if truthy config_used then Some config_used else None)
              (if truthy input_summary then Some input_summary else None) in
  match gate_action with
  | Some a =>
      if dominates a (d_action d1) then
        let* reason := reason_token gate_rationale in
        Some (mkLoop (override d1 a (gate_name g) gate_rationale
                        (Some config_used) (Some input_summary))
                     (Some (gate_name g)) (Some (gate_name g)) reason)
      else Some (mkLoop d1 (winning_gate st) (primary_gate st) (primary_reason_type st))
  | None => Some (mkLoop d1 (winning_gate st) (primary_gate st) (primary_reason_type st))
  end.

(** [for gate in self.gates: ...]; returns the gates as left by the call. *)
Fixpoint run_gates (intent : Intent) (context : Context) (ev : Evidence)
    (pol : option PolicyEvaluator) (gs : list G) (st : loop_state)
  : option (list G * loop_state) :=
  match gs with
  | [] => Some ([], st)
  | g :: gs' =>
      match gate_evaluate g intent context ev pol with
      | None => None
      | Some (g', res) =>
          let* st' := fold_gate ev st g' res in
          match run_gates intent context ev pol gs' st' with
          | None => None
          | Some (gs'', st'') => Some (g' :: gs'', st'')
          end
      end
  end.

(** [if primary_gate:] *)
Definition nonempty_name (o : option string) : option string :=
  match o with
  | Some s => if String.eqb s "" then None else Some s
  | None => None
  end.

(** [GovernancePipeline.evaluate]; [trace_id] and [timestamp] are the
    values the [Decision] constructor draws from [uuid4()] and the clock.
    Returns the pipeline with its gates as mutated by the call. *)
Definition evaluate (p : GovernancePipeline) (intent : Intent) (context : Context)
    (ev : Evidence) (pol : option PolicyEvaluator) (trace_id timestamp : string)
  : option (GovernancePipeline * Decision) :=
  let current_action := default_action p in
  let d0 := new_decision current_action "No gates triggered"
              (VDict [("intent", VStr (intent_name intent));
                      ("context", VDict [("channel", opt_str (channel context));
                                         ("user_id", opt_str (user_id context))]);
                      ("evidence_keys", VList (map (fun kv => VStr (fst kv)) (ev_metadata ev)))])
              trace_id timestamp in
  let d0 := match pol with
            | Some pe => set_policy_info d0 (dict_get_default (policy pe) "name" VNone)
                                            (dict_get_default (policy pe) "version" VNone)
            | None => d0
            end in
  match run_gates intent context ev pol (gates p) (mkLoop d0 None None "default") with
  | None => None
  | Some (gs', st) =>
      let d := st_decision st in
      let d := match d_action d with
               | ALLOW => set_final_gate d None
               | _ => set_final_gate d (winning_gate st)
               end in
      let code := match nonempty_name (primary_gate st) with
                  | Some pg => generate_decision_code (d_action d) pg (primary_reason_type st)
                  | None => ("GOVERNANCE_" ++ action_value (d_action d) ++ "_DEFAULT")%string
                  end in
      Some (mkPipeline gs' (default_action p), set_decision_code d code)
  end.

(** Reading aids for the properties below (not part of the source).
    [gate_result] is what one gate contributes when the pipeline calls it:
    its name and its [(action, rationale)] pair. *)
Definition gate_result (intent : Intent) (context : Context) (ev : Evidence)
    (pol : option PolicyEvaluator) (g : G) : option (string * (option DecisionAction * string)) :=
  match gate_evaluate g intent context ev pol with
  | Some (g', res) => Some (gate_name g', res)
  | None => None
  end.

Fixpoint gate_results (intent : Intent) (context : Context) (ev : Evidence)
    (pol : option PolicyEvaluator) (gs : list G)
  : option (list (string * (option DecisionAction * string))) :=
  match gs with
  | [] => Some []
  | g :: gs' =>
      let* r := gate_result intent context ev pol g in
      let* rs := gate_results intent context ev pol gs' in
      Some (r :: rs)
  end.

(** The action in force, the rationale and the winning gate, and how one
    gate's contribution changes them ([dominates] decides an override). *)
Definition step_proj (s : DecisionAction * string * option string)
    (r : string * (option DecisionAction * string)) : DecisionAction * string * option string :=
  let '(a, rat, w) := s in
  let '(n, (act, gr)) := r in
  match act with
  | Some b => if dominates b a then (b, gr, Some n) else (a, rat, w)
  | None => (a, rat, w)
  end.

Definition proj (st : loop_state) : DecisionAction * string * option string :=
  (d_action (st_decision st), d_rationale (st_decision st), winning_gate st).

End Pipeline.

Arguments mkPipeline {G}.
Arguments gates {G}.
Arguments default_action {G}.
Arguments make_pipeline {G}.

(** The action in force after a gate proposing [o]. *)
Definition action_join (a : DecisionAction) (o : option DecisionAction) : DecisionAction :=
  match o with
  | Some b => if dominates b a then b else a
  | None => a
  end.

(** A decision with another trace id and timestamp. *)
Definition retime (d : Decision) (trace_id timestamp : string) : Decision :=
  mkDecision (d_action d) (d_rationale d) (d_evidence_summary d) trace_id (d_required_steps d)
    timestamp (d_gate_contributions d) (d_gate_decisions d) (d_policy_version d)
    (d_policy_name d) (d_decision_code d) (d_final_gate d).

(** The loop state of a run whose decision drew other [uuid4()] and clock values. *)
Definition retime_loop (st : loop_state) (trace_id timestamp : string) : loop_state :=
  mkLoop (retime (st_decision st) trace_id timestamp) (winning_gate st) (primary_gate st)
    (primary_reason_type st).

(** Severity of a proposal; an annotation ranks lowest. *)
Definition opt_prec (o : option DecisionAction) : nat :=
  match o with Some b => precedence b | None => 0 end.


(* ------------------------------------------------------------------ *)
(** ** Gates: shared helpers *)

(** [f"{x:.2f}"] formats only numbers: a string raises [ValueError],
    [None] a [TypeError]. *)
Definition fmt2f_ok (v : pyval) : bool := is_number v.

(** [self.<field> = policy_config.get(key, self.<field>)] *)
Definition cfg_get (c : dict) (key : string) (current : pyval) : pyval :=
  dict_get_default c key current.

(** [set(policy_config.get(key, self.<field>))]: the current set is kept
    as it is when the key is absent. *)
Definition cfg_get_set (c : dict) (key : string) (current : list pyval) : option (list pyval) :=
  match dict_get c key with
  | Some v => py_set v
  | None => Some current
  end.

(** [if policy: policy_config = policy.get_gate_config(self.name);
    if policy_config: ...]: runs [update] on the override map; a truthy
    override that is not a dict raises on [.get]. *)
Definition with_gate_config {A} (name : string) (pol : option PolicyEvaluator) (g : A)
    (update : dict -> option A) : option A :=
  match pol with
  | None => Some g
  | Some pe =>
      let* cfg := get_gate_config pe name in
      if truthy cfg then
        match cfg with
        | VDict c => update c
        | _ => None
        end
      else Some g
  end.

(* ------------------------------------------------------------------ *)
(** ** gates/fact_verifiability.py *)

Record FactVerifiabilityGate : Type := mkFactGate {
  require_realtime_facts : list pyval;
  verifiable_threshold : pyval;
  stop_on_unverifiable : pyval
}.

Definition make_fact_gate (rrf : list string) (threshold : Q) (stop : bool) : FactVerifiabilityGate :=
  mkFactGate (set_update [] (map VStr rrf)) (VFloat threshold) (VBool stop).

(** [FactVerifiabilityGate()] with its constructor defaults. *)
Definition default_fact_gate : FactVerifiabilityGate := make_fact_gate [] (7 # 10) false.

Definition fact_apply_policy (g : FactVerifiabilityGate) (pol : option PolicyEvaluator)
  : option FactVerifiabilityGate :=
  with_gate_config "fact_verifiability" pol g (fun c =>
    let* rrf := cfg_get_set c "require_realtime_facts" (require_realtime_facts g) in
    Some (mkFactGate rrf
            (cfg_get c "verifiable_threshold" (verifiable_threshold g))
            (cfg_get c "stop_on_unverifiable" (stop_on_unverifiable g)))).

(** The rationale f-strings, one constructor per [return]. *)
Inductive fact_msg : Type :=
| FactRealtimeUnverifiable (name : string) (source freshness : pyval)
| FactUnverifiable (source confidence : pyval)
| FactLowConfidenceRealtime (name : string) (confidence threshold : pyval)
| FactLowConfidence (confidence threshold : pyval)
| FactUntrustedSource (name : string) (source : pyval)
| FactSourceAdvisory (source : pyval)
| FactStale (freshness : pyval)
| FactVerified (confidence source : pyval).

Definition UNTRUSTED_SOURCES := [VStr "unknown"; VStr "untrusted"; VStr "user_provided"].
Definition STALE_FRESHNESS := [VStr "stale"; VStr "outdated"; VStr "expired"].

(** The rules of [FactVerifiabilityGate.evaluate] after the overrides. *)
Definition fact_decide (g : FactVerifiabilityGate) (intent : Intent) (ev : Evidence)
  : option (option DecisionAction * fact_msg) :=
  let verifiable := evidence_get ev "facts.verifiable" (VBool true) in
  let verifiable_confidence := evidence_get ev "facts.verifiable_confidence" (VFloat 1) in
  let needs_realtime := py_in (VStr (intent_name intent)) (require_realtime_facts g) in
  let is_realtime_dependent := evidence_get ev "facts.requires_realtime" (VBool needs_realtime) in
  let fact_source := evidence_get ev "facts.source" (VStr "unknown") in
  let fact_freshness := evidence_get ev "facts.freshness" (VStr "unknown") in
  match verifiable with
  | VBool false =>
      (* Rule 1 *)
      if truthy is_realtime_dependent then
        Some (Some (if truthy (stop_on_unverifiable g) then STOP else RESTRICT),
              FactRealtimeUnverifiable (intent_name intent) fact_source fact_freshness)
      else if fmt2f_ok verifiable_confidence then
        Some (Some RESTRICT, FactUnverifiable fact_source verifiable_confidence)
      else None
  | _ =>
      (* Rule 2 *)
      let* low := py_lt verifiable_confidence (verifiable_threshold g) in
      if low then
        if fmt2f_ok verifiable_confidence && fmt2f_ok (verifiable_threshold g) then
          if truthy is_realtime_dependent then
            Some (Some RESTRICT, FactLowConfidenceRealtime (intent_name intent)
                                   verifiable_confidence (verifiable_threshold g))
          else
            Some (None, FactLowConfidence verifiable_confidence (verifiable_threshold g))
        else None
      (* Rule 3 *)
      else if py_in fact_source UNTRUSTED_SOURCES then
        if truthy is_realtime_dependent then
          Some (Some RESTRICT, FactUntrustedSource (intent_name intent) fact_source)
        else
          Some (None, FactSourceAdvisory fact_source)
      (* Rule 4 *)
      else if py_in fact_freshness STALE_FRESHNESS then
        Some (Some RESTRICT, FactStale fact_freshness)
      else if fmt2f_ok verifiable_confidence then
        Some (None, FactVerified verifiable_confidence fact_source)
      else None
  end.

(** [FactVerifiabilityGate.evaluate]: the instance after the call and the result. *)
Definition fact_evaluate (g : FactVerifiabilityGate) (intent : Intent) (ev : Evidence)
    (pol : option PolicyEvaluator)
  : option (FactVerifiabilityGate * (option DecisionAction * fact_msg)) :=
  let* g' := fact_apply_policy g pol in
  let* r := fact_decide g' intent ev in
  Some (g', r).

Definition fact_config_snapshot (g : FactVerifiabilityGate) : pyval :=
  VDict [("verifiable_threshold", verifiable_threshold g);
         ("require_realtime_facts", VList (require_realtime_facts g));
         ("stop_on_unverifiable", stop_on_unverifiable g)].

Definition fact_input_summary (ev : Evidence) : pyval :=
  VDict [("facts", VDict [("verifiable", VDict (facts ev));
                          ("verifiable_confidence", dict_get_default (facts ev) "verifiable_confidence" VNone);
                          ("source", dict_get_default (facts ev) "source" VNone);
                          ("freshness", dict_get_default (facts ev) "freshness" VNone);
                          ("requires_realtime", dict_get_default (facts ev) "requires_realtime" VNone)])].

(* ------------------------------------------------------------------ *)
(** ** gates/uncertainty.py *)

Record UncertaintyGate : Type := mkUncertaintyGate {
  confidence_threshold : pyval;
  stop_on_conflict : pyval;
  outdated_version_days : pyval
}.

Definition default_uncertainty_gate : UncertaintyGate :=
  mkUncertaintyGate (VFloat (6 # 10)) (VBool false) (VInt 30).

Definition uncertainty_apply_policy (g : UncertaintyGate) (pol : option PolicyEvaluator)
  : option UncertaintyGate :=
  with_gate_config "uncertainty" pol g (fun c =>
    Some (mkUncertaintyGate
            (cfg_get c "confidence_threshold" (confidence_threshold g))
            (cfg_get c "stop_on_conflict" (stop_on_conflict g))
            (cfg_get c "outdated_version_days" (outdated_version_days g)))).

Inductive uncertainty_msg : Type :=
| UncLowConfidence (confidence threshold source : pyval)
| UncConflicts (conflict_count : pyval)
| UncOutdated (kb_version kb_age_days outdated_days : pyval)
| UncToolDisagreement
| UncLowCoverage (coverage coverage_threshold : pyval)
| UncAcceptable (confidence coverage : pyval).

Definition uncertainty_decide (g : UncertaintyGate) (ev : Evidence)
  : option (option DecisionAction * uncertainty_msg) :=
  let rag_confidence := evidence_get ev "rag.confidence" (VFloat 1) in
  let rag_source := evidence_get ev "rag.source" (VStr "unknown") in
  let* low := py_lt rag_confidence (confidence_threshold g) in
  if low then
    if fmt2f_ok rag_confidence && fmt2f_ok (confidence_threshold g) then
      Some (Some RESTRICT, UncLowConfidence rag_confidence (confidence_threshold g) rag_source)
    else None
  else
  let has_conflicts := evidence_get ev "rag.has_conflicts" (VBool false) in
  let conflict_count := evidence_get ev "rag.conflict_count" (VInt 0) in
  let* conflicting := if truthy has_conflicts then Some true else py_lt (VInt 0) conflict_count in
  if conflicting then
    Some (Some (if truthy (stop_on_conflict g) then STOP else RESTRICT), UncConflicts conflict_count)
  else
  let kb_version := evidence_get ev "rag.kb_version" (VStr "unknown") in
  let kb_age_days := evidence_get ev "rag.kb_age_days" (VInt 0) in
  let* outdated := py_lt (outdated_version_days g) kb_age_days in
  if outdated then
    Some (Some RESTRICT, UncOutdated kb_version kb_age_days (outdated_version_days g))
  else
  let tool_disagreement := evidence_get ev "rag.tool_disagreement" (VBool false) in
  if truthy tool_disagreement then Some (Some ESCALATE, UncToolDisagreement)
  else
  let retrieval_coverage := evidence_get ev "rag.coverage" (VFloat 1) in
  let coverage_threshold := evidence_get ev "rag.coverage_threshold" (VFloat (8 # 10)) in
  let* lowcov := py_lt retrieval_coverage coverage_threshold in
  if lowcov then
    if fmt2f_ok retrieval_coverage && fmt2f_ok coverage_threshold then
      Some (Some RESTRICT, UncLowCoverage retrieval_coverage coverage_threshold)
    else None
  else if fmt2f_ok rag_confidence && fmt2f_ok retrieval_coverage then
    Some (None, UncAcceptable rag_confidence retrieval_coverage)
  else None.

Definition uncertainty_evaluate (g : UncertaintyGate) (ev : Evidence) (pol : option PolicyEvaluator)
  : option (UncertaintyGate * (option DecisionAction * uncertainty_msg)) :=
  let* g' := uncertainty_apply_policy g pol in
  let* r := uncertainty_decide g' ev in
  Some (g', r).

Definition uncertainty_config_snapshot (g : UncertaintyGate) : pyval :=
  VDict [("confidence_threshold", confidence_threshold g);
         ("stop_on_conflict", stop_on_conflict g);
         ("outdated_version_days", outdated_version_days g)].

Definition uncertainty_input_summary (ev : Evidence) : pyval :=
  VDict [("rag", VDict (map (fun k => (k, dict_get_default (rag ev) k VNone))
                        ["confidence"; "source"; "has_conflicts"; "conflict_count";
                         "kb_version"; "kb_age_days"; "coverage"; "tool_disagreement"]))].

(* ------------------------------------------------------------------ *)
(** ** gates/responsibility.py *)

Record ResponsibilityGate : Type := mkResponsibilityGate {
  financial_intents : list pyval;
  authority_intents : list pyval;
  sensitive_intents : list pyval;
  stop_on_sensitive : pyval
}.

Definition default_responsibility_gate : ResponsibilityGate :=
  mkResponsibilityGate
    (map VStr ["refund"; "compensation"; "discount_approval"; "credit_request"; "payment_adjustment"])
    (map VStr ["policy_change"; "contract_modification"; "commitment"; "guarantee"])
    (map VStr ["legal_advice"; "medical_advice"; "regulatory_compliance"])
    (VBool false).

Definition responsibility_apply_policy (g : ResponsibilityGate) (pol : option PolicyEvaluator)
  : option ResponsibilityGate :=
  with_gate_config "responsibility" pol g (fun c =>
    let* fin := cfg_get_set c "financial_intents" (financial_intents g) in
    let* auth := cfg_get_set c "authority_intents" (authority_intents g) in
    let* sens := cfg_get_set c "sensitive_intents" (sensitive_intents g) in
    Some (mkResponsibilityGate fin auth sens (cfg_get c "stop_on_sensitive" (stop_on_sensitive g)))).

Inductive responsibility_msg : Type :=
| RespFinancial (name : string)
| RespAuthority (name : string)
| RespIrreversible (name : string)
| RespSensitive (name : string)
| RespCompensation
| RespWithin (name : string).

Definition COMPENSATION_KEYWORDS := ["compensat"; "refund"; "credit"; "discount"; "reimburse"].

(** [intent.parameters.get("user_input", "").lower()]: a non-string
    value raises [AttributeError]. *)
Definition lowered_user_input (intent : Intent) : option string :=
  match dict_get_default (parameters intent) "user_input" (VStr "") with
  | VStr s => Some (str_lower s)
  | _ => None
  end.

Definition responsibility_decide (g : ResponsibilityGate) (intent : Intent) (ev : Evidence)
  : option (option DecisionAction * responsibility_msg) :=
  let has_financial_impact := evidence_get ev "topic.has_financial_impact" (VBool false) in
  let requires_authority := evidence_get ev "topic.requires_authority" (VBool false) in
  let is_irreversible := evidence_get ev "topic.is_irreversible" (VBool false) in
  let is_sensitive := evidence_get ev "topic.is_sensitive" (VBool false) in
  let name := intent_name intent in
  if py_in (VStr name) (financial_intents g) || truthy has_financial_impact then
    Some (Some ESCALATE, RespFinancial name)
  else if py_in (VStr name) (authority_intents g) || truthy requires_authority then
    Some (Some ESCALATE, RespAuthority name)
  else if truthy is_irreversible then
    Some (Some ESCALATE, RespIrreversible name)
  else if py_in (VStr name) (sensitive_intents g) || truthy is_sensitive then
    Some (Some (if truthy (stop_on_sensitive g) then STOP else ESCALATE), RespSensitive name)
  else
    let* user_input := lowered_user_input intent in
    if existsb (fun k => str_contains k user_input) COMPENSATION_KEYWORDS then
      Some (Some ESCALATE, RespCompensation)
    else Some (None, RespWithin name).

Definition responsibility_evaluate (g : ResponsibilityGate) (intent : Intent) (ev : Evidence)
    (pol : option PolicyEvaluator)
  : option (ResponsibilityGate * (option DecisionAction * responsibility_msg)) :=
  let* g' := responsibility_apply_policy g pol in
  let* r := responsibility_decide g' intent ev in
  Some (g', r).

Definition responsibility_config_snapshot (g : ResponsibilityGate) : pyval :=
  VDict [("financial_intents", VList (financial_intents g));
         ("authority_intents", VList (authority_intents g));
         ("sensitive_intents", VList (sensitive_intents g));
         ("stop_on_sensitive", stop_on_sensitive g)].

Definition responsibility_input_summary (ev : Evidence) : pyval :=
  VDict [("topic", VDict (map (fun k => (k, dict_get_default (topic ev) k VNone))
                          ["has_financial_impact"; "requires_authority"; "is_irreversible"; "is_sensitive"]))].

(* ------------------------------------------------------------------ *)
(** ** gates/safety.py *)

Definition FRAUD_KEYWORDS : list string :=
  ["bypass"; "credit card generator"; "card number generator"; "cvv generator"; "fake payment";
   "payment fraud"; "chargeback fraud"; "refund fraud"; "free credit"; "steal payment";
   "hack payment"; "payment system"; "get services for free"].

Definition ILLEGAL_CONTENT_KEYWORDS : list string :=
  ["make bomb"; "how to make explosive"; "drug manufacturing"; "synthetic drug"; "illegal drug";
   "weapon manufactur"; "fake id"; "fake identification"; "identity theft"; "money launder";
   "without showing id"; "without id"; "buy cigarettes"; "age restricted"].

Definition SECURITY_ATTACK_KEYWORDS : list string :=
  ["sql injection"; "xss attack"; "ddos attack"; "hack into"; "exploit vulnerability";
   "brute force"; "inject code"].

(** The keyword sets are kept in their iteration order. *)
Record SafetyGate : Type := mkSafetyGate {
  fraud_keywords : list pyval;
  illegal_keywords : list pyval;
  security_keywords : list pyval;
  stop_on_sensitive_stop : pyval
}.

Definition make_safety_gate (additional_fraud additional_illegal : list string) (stop : bool)
  : SafetyGate :=
  mkSafetyGate (set_update [] (map VStr (FRAUD_KEYWORDS ++ additional_fraud)))
               (set_update [] (map VStr (ILLEGAL_CONTENT_KEYWORDS ++ additional_illegal)))
               (set_update [] (map VStr SECURITY_ATTACK_KEYWORDS))
               (VBool stop).

Definition default_safety_gate : SafetyGate := make_safety_gate [] [] false.

(** The override map extends the keyword sets ([set.update]) and replaces
    [stop_on_sensitive_stop]. *)
Definition safety_apply_policy (g : SafetyGate) (pol : option PolicyEvaluator) : option SafetyGate :=
  with_gate_config "safety" pol g (fun c =>
    let* additional_fraud := py_iter_hashable (cfg_get c "additional_fraud_keywords" (VList [])) in
    let* additional_illegal := py_iter_hashable (cfg_get c "additional_illegal_keywords" (VList [])) in
    Some (mkSafetyGate (set_update (fraud_keywords g) additional_fraud)
                       (set_update (illegal_keywords g) additional_illegal)
                       (security_keywords g)
                       (cfg_get c "stop_on_sensitive_stop" (stop_on_sensitive_stop g)))).

(** [for keyword in keywords: if keyword in user_input: return ...]:
    the first matching keyword, [None] on a non-string keyword. *)
Fixpoint first_keyword (keywords : list pyval) (user_input : string) : option (option pyval) :=
  match keywords with
  | [] => Some None
  | k :: ks =>
      let* hit := py_substr k user_input in
      if hit then Some (Some k) else first_keyword ks user_input
  end.

Inductive safety_msg : Type :=
| SafetyFraudKeyword (keyword : pyval)
| SafetyIllegalKeyword (keyword : pyval)
| SafetySecurityKeyword (keyword : pyval)
| SafetyFraudIntent (name : string)
| SafetyIllegalIntent (name : string)
| SafetyHarmFlag
| SafetySensitive (name : string)
| SafetyNone (name : string).

(** Rule 4 ([topic.harm_risk is True]) and what follows it. *)
Definition safety_flag_rules (g : SafetyGate) (intent : Intent) (ev : Evidence)
  : option DecisionAction * safety_msg :=
  let harm_risk := evidence_get ev "topic.harm_risk" (VBool false) in
  match harm_risk with
  | VBool true =>
      let iname := str_lower (intent_name intent) in
      if str_contains "fraud" iname || str_contains "payment" iname || str_contains "bypass" iname then
        (Some STOP, SafetyFraudIntent (intent_name intent))
      else if str_contains "illegal" iname || str_contains "restricted" iname then
        (Some STOP, SafetyIllegalIntent (intent_name intent))
      else (Some STOP, SafetyHarmFlag)
  | _ =>
      (* Rule 5 *)
      if truthy (stop_on_sensitive_stop g) && truthy (evidence_get ev "topic.is_sensitive" (VBool false))
      then (Some STOP, SafetySensitive (intent_name intent))
      else (None, SafetyNone (intent_name intent))
  end.

Definition safety_decide (g : SafetyGate) (intent : Intent) (ev : Evidence)
  : option (option DecisionAction * safety_msg) :=
  let* user_input := lowered_user_input intent in
  let* fraud := first_keyword (fraud_keywords g) user_input in
  match fraud with
  | Some k => Some (Some STOP, SafetyFraudKeyword k)
  | None =>
  let* illegal := first_keyword (illegal_keywords g) user_input in
  match illegal with
  | Some k => Some (Some STOP, SafetyIllegalKeyword k)
  | None =>
  let* security := first_keyword (security_keywords g) user_input in
  match security with
  | Some k => Some (Some STOP, SafetySecurityKeyword k)
  | None => Some (safety_flag_rules g intent ev)
  end end end.

Definition safety_evaluate (g : SafetyGate) (intent : Intent) (ev : Evidence)
    (pol : option PolicyEvaluator) : option (SafetyGate * (option DecisionAction * safety_msg)) :=
  let* g' := safety_apply_policy g pol in
  let* r := safety_decide g' intent ev in
  Some (g', r).

Definition safety_config_snapshot (g : SafetyGate) : pyval :=
  VDict [("fraud_keywords_count", VInt (Z.of_nat (length (fraud_keywords g))));
         ("illegal_keywords_count", VInt (Z.of_nat (length (illegal_keywords g))));
         ("security_keywords_count", VInt (Z.of_nat (length (security_keywords g))));
         ("stop_on_sensitive_stop", stop_on_sensitive_stop g)].

Definition safety_input_summary (ev : Evidence) : pyval :=
  VDict [("user_input", VStr "<redacted_for_privacy>");
         ("topic_flags", VDict [("harm_risk", dict_get_default (topic ev) "harm_risk" VNone);
                                ("is_sensitive", dict_get_default (topic ev) "is_sensitive" VNone)])].

(* ------------------------------------------------------------------ *)
(** ** The concrete gates behind the [Gate] interface *)

Section Gates.

(** [f"{x}"] and [f"{x:.2f}"] on the values the f-strings interpolate. *)
Variable py_str : pyval -> string.
Variable fmt2f : pyval -> string.

Definition render_fact (m : fact_msg) : string :=
  match m with
  | FactRealtimeUnverifiable n s f =>
      "Intent '" ++ n ++ "' requires real-time facts but facts are not verifiable (source: "
        ++ py_str s ++ ", freshness: " ++ py_str f ++ ")"
  | FactUnverifiable s c =>
      "Facts are not verifiable (source: " ++ py_str s ++ ", confidence: " ++ fmt2f c ++ ")"
  | FactLowConfidenceRealtime n c t =>
      "Intent '" ++ n ++ "' requires high-confidence facts, but confidence is " ++ fmt2f c
        ++ " (threshold: " ++ fmt2f t ++ ")"
  | FactLowConfidence c t =>
      "Fact verifiability confidence is " ++ fmt2f c ++ " (below threshold " ++ fmt2f t ++ ")"
  | FactUntrustedSource n s =>
      "Intent '" ++ n ++ "' requires trusted sources, but source is '" ++ py_str s ++ "'"
  | FactSourceAdvisory s => "Fact source is '" ++ py_str s ++ "' - consider verification"
  | FactStale f => "Facts may be stale (freshness: " ++ py_str f ++ ") - recommend refresh"
  | FactVerified c s =>
      "Facts are verifiable (confidence: " ++ fmt2f c ++ ", source: " ++ py_str s ++ ")"
  end.

Definition render_uncertainty (m : uncertainty_msg) : string :=
  match m with
  | UncLowConfidence c t s =>
      "Retrieval confidence " ++ fmt2f c ++ " is below threshold " ++ fmt2f t
        ++ " (source: " ++ py_str s ++ ")"
  | UncConflicts n =>
      "Retrieval has " ++ py_str n ++ " conflicting results - cannot determine correct answer"
  | UncOutdated v a d =>
      "Knowledge base version " ++ py_str v ++ " is " ++ py_str a
        ++ " days old (outdated threshold: " ++ py_str d ++ " days)"
  | UncToolDisagreement => "Multiple tools provided conflicting results - requires human review"
  | UncLowCoverage c t =>
      "Retrieval coverage " ++ fmt2f c ++ " is incomplete (threshold: " ++ fmt2f t ++ ")"
  | UncAcceptable c v =>
      "Uncertainty is acceptable (confidence: " ++ fmt2f c ++ ", coverage: " ++ fmt2f v ++ ")"
  end.

Definition render_responsibility (m : responsibility_msg) : string :=
  match m with
  | RespFinancial n => "Intent '" ++ n ++ "' has financial responsibility - requires human review"
  | RespAuthority n =>
      "Intent '" ++ n ++ "' requires organizational authority - cannot commit autonomously"
  | RespIrreversible n => "Intent '" ++ n ++ "' is irreversible - requires explicit approval"
  | RespSensitive n => "Intent '" ++ n ++ "' involves sensitive topic - outside autonomous scope"
  | RespCompensation => "User input suggests compensation/financial request - requires human review"
  | RespWithin n => "Intent '" ++ n ++ "' is within responsibility boundaries"
  end.

Definition render_safety (m : safety_msg) : string :=
  match m with
  | SafetyFraudKeyword k =>
      "Fraud request detected: '" ++ py_str k ++ "' - Refusing to process payment bypass/fraud attempt"
  | SafetyIllegalKeyword k =>
      "Illegal content request detected: '" ++ py_str k ++ "' - Refusing to provide illegal/information"
  | SafetySecurityKeyword k =>
      "Security attack detected: '" ++ py_str k ++ "' - Refusing to process security request"
  | SafetyFraudIntent n =>
      "Fraud request detected: '" ++ n ++ "' - Refusing to process payment bypass/fraud attempt"
  | SafetyIllegalIntent n =>
      "Illegal content request detected: '" ++ n ++ "' - Refusing to provide illegal/restricted information"
  | SafetyHarmFlag => "Request flagged as high-risk/harmful - Refusing to process"
  | SafetySensitive n =>
      "Sensitive topic with stop flag - Intent '" ++ n ++ "' requires human specialist"
  | SafetyNone n => "No safety risks detected for intent '" ++ n ++ "'"
  end.

(** A gate instance of one of the four classes. *)
Inductive AnyGate : Type :=
| GFact (g : FactVerifiabilityGate)
| GUncertainty (g : UncertaintyGate)
| GResponsibility (g : ResponsibilityGate)
| GSafety (g : SafetyGate).

Definition any_gate_name (g : AnyGate) : string :=
  match g with
  | GFact _ => "fact_verifiability"
  | GUncertainty _ => "uncertainty"
  | GResponsibility _ => "responsibility"
  | GSafety _ => "safety"
  end.

Definition lift_result {A M} (wrap : A -> AnyGate) (render : M -> string)
    (r : option (A * (option DecisionAction * M)))
  : option (AnyGate * (option DecisionAction * string)) :=
  match r with
  | Some (g', (a, m)) => Some (wrap g', (a, render m))
  | None => None
  end.

(** [gate.evaluate(intent, context, evidence, policy)] dispatched on the class. *)
Definition any_evaluate (g : AnyGate) (intent : Intent) (context : Context) (ev : Evidence)
    (pol : option PolicyEvaluator) : option (AnyGate * (option DecisionAction * string)) :=
  match g with
  | GFact f => lift_result GFact render_fact (fact_evaluate f intent ev pol)
  | GUncertainty u => lift_result GUncertainty render_uncertainty (uncertainty_evaluate u ev pol)
  | GResponsibility r =>
      lift_result GResponsibility render_responsibility (responsibility_evaluate r intent ev pol)
  | GSafety s => lift_result GSafety render_safety (safety_evaluate s intent ev pol)
  end.

Definition any_config_snapshot (g : AnyGate) : pyval :=
  match g with
  | GFact f => fact_config_snapshot f
  | GUncertainty u => uncertainty_config_snapshot u
  | GResponsibility r => responsibility_config_snapshot r
  | GSafety s => safety_config_snapshot s
  end.

Definition any_input_summary (g : AnyGate) (ev : Evidence) : pyval :=
  match g with
  | GFact _ => fact_input_summary ev
  | GUncertainty _ => uncertainty_input_summary ev
  | GResponsibility _ => responsibility_input_summary ev
  | GSafety _ => safety_input_summary ev
  end.

(** [GovernancePipeline.evaluate] over the concrete gates. *)
Definition pipeline_evaluate (p : GovernancePipeline AnyGate) (intent : Intent) (context : Context)
    (ev : Evidence) (pol : option PolicyEvaluator) (trace_id timestamp : string)
  : option (GovernancePipeline AnyGate * Decision) :=
  evaluate AnyGate any_gate_name any_evaluate any_config_snapshot any_input_summary
    p intent context ev pol trace_id timestamp.

End Gates.

(** Renderers for concrete runs: [str(v)] of a string, a fixed text for
    anything else.  No property below depends on the rendered numbers. *)
Definition example_str (v : pyval) : string :=
  match v with VStr s => s | _ => "<value>" end.

Definition example_fmt2f (v : pyval) : string := "<number>".


(** Which rule produced a gate's rationale. *)
Definition fact_low_confidence_rule (m : fact_msg) : bool :=
  match m with FactLowConfidenceRealtime _ _ _ | FactLowConfidence _ _ => true | _ => false end.

Definition uncertainty_low_confidence_rule (m : uncertainty_msg) : bool :=
  match m with UncLowConfidence _ _ _ => true | _ => false end.

Definition uncertainty_low_coverage_rule (m : uncertainty_msg) : bool :=
  match m with UncLowCoverage _ _ => true | _ => false end.

(** Repeated calls [gate.evaluate(intent, context, evidence, policy)] on
    one gate instance, each call with its own arguments: the instance left
    after the last one, [None] if a call raises. *)
Fixpoint run_calls {A R}
    (eval : A -> Intent -> Context -> Evidence -> option PolicyEvaluator -> option (A * R))
    (g : A) (calls : list (Intent * Context * Evidence * option PolicyEvaluator)) : option A :=
  match calls with
  | [] => Some g
  | (intent, context, ev, pol) :: cs =>
      match eval g intent context ev pol with
      | Some (g', _) => run_calls eval g' cs
      | None => None
      end
  end.

(** The policies of a sequence of calls, in order. *)
Definition call_policies (calls : list (Intent * Context * Evidence * option PolicyEvaluator))
  : list (option PolicyEvaluator) :=
  map snd calls.

(** The value an evaluation's override map supplies for [key], if any. *)
Definition supplied (gate : string) (key : string) (pol : option PolicyEvaluator) : option pyval :=
  match pol with
  | Some pe =>
      match get_gate_config pe gate with
      | Some (VDict c) => dict_get c key
      | _ => None
      end
  | None => None
  end.

(** The most recently supplied value, or [dflt] if none was. *)
Definition last_supplied (gate key : string) (pols : list (option PolicyEvaluator)) (dflt : pyval) : pyval :=
  fold_left (fun acc pol => match supplied gate key pol with Some v => v | None => acc end) pols dflt.

(** A set field after [self.<field> = set(policy_config.get(key, ...))]:
    [set(v)] of the most recently supplied value [v], or [dflt] if none was.
    A supplied value that is not iterable raises, so the [None] case of
    [py_set] never applies in a sequence of calls that completes. *)
Definition last_supplied_set (gate key : string) (pols : list (option PolicyEvaluator))
    (dflt : list pyval) : list pyval :=
  fold_left (fun acc pol =>
      match supplied gate key pol with
      | Some v => match py_set v with Some s => s | None => acc end
      | None => acc
      end) pols dflt.

(** A keyword set after [self.<field>.update(policy_config.get(key, []))]
    in every call: [init] extended, in order, by every supplied list.  A
    supplied value that is not iterable raises, as above. *)
Definition accumulated_keywords (gate key : string) (pols : list (option PolicyEvaluator))
    (init : list pyval) : list pyval :=
  fold_left (fun acc pol =>
      match supplied gate key pol with
      | Some v => match py_iter_hashable v with Some l => set_update acc l | None => acc end
      | None => acc
      end) pols init.

(** Inputs of the concrete runs below. *)

Definition harm_intent : Intent := mkIntent "payment_bypass" 1 [("user_input", VStr "Hello there")].

Definition harm_evidence : Evidence := mkEvidence [] [] [("harm_risk", VInt 1)] [].

Definition empty_policy : dict := [].

Definition malformed_policy : dict :=
  [("version", VStr "2.0"); ("name", VStr "  "); ("rules", VInt 5)].

Definition between_policy : dict :=
  [("version", VStr "1.0"); ("name", VStr "between-policy");
   ("rules", VList [VDict [("name", VStr "mid-confidence");
                           ("conditions", VDict [("evidence.rag.confidence",
                                VDict [("between", VList [VFloat (2 # 10); VFloat (5 # 10)])])]);
                           ("action", VStr "RESTRICT")]])].

Definition demo_context : Context := mkContext None (Some "web") None [].

Definition ce_intent : Intent :=
  mkIntent "refund" 1 [("user_input", VStr "Please bypass the payment check")].

Definition ce_evidence : Evidence :=
  mkEvidence [] [("confidence", VFloat (3 # 10))] [] [].

Definition ce_pipeline : GovernancePipeline AnyGate :=
  make_pipeline [GUncertainty default_uncertainty_gate; GResponsibility default_responsibility_gate;
                 GSafety default_safety_gate] None.

Definition calm_intent : Intent := mkIntent "order_status" 1 [("user_input", VStr "Where is my order")].

Definition calm_evidence : Evidence :=
  mkEvidence [("verifiable", VBool true); ("verifiable_confidence", VFloat (95 # 100)); ("source", VStr "official")] [] [] [].

Definition restrict_pipeline : GovernancePipeline AnyGate :=
  make_pipeline [GFact default_fact_gate] (Some RESTRICT).

Definition threshold_policy : PolicyEvaluator :=
  mkPolicyEvaluator [("version", VStr "1.0"); ("name", VStr "strict-facts"); ("rules", VList []);
    ("gates", VDict [("fact_verifiability", VDict [("verifiable_threshold", VFloat (9 # 10))])])].

Definition stop_policy : PolicyEvaluator :=
  mkPolicyEvaluator [("version", VStr "1.0"); ("name", VStr "stop-facts"); ("rules", VList []);
    ("gates", VDict [("fact_verifiability", VDict [("stop_on_unverifiable", VBool true)])])].

Definition realtime_evidence : Evidence :=
  mkEvidence [("verifiable_confidence", VFloat (8 # 10)); ("requires_realtime", VBool true);
              ("source", VStr "official")] [] [] [].

Definition override_policy : PolicyEvaluator :=
  mkPolicyEvaluator [("version", VStr "1.0"); ("name", VStr "overrides"); ("rules", VList []);
    ("gates", VDict [("fact_verifiability", VDict [("verifiable_threshold", VFloat (9 # 10))]);
                     ("safety", VDict [("additional_fraud_keywords", VList [VStr "wire transfer"])])])].

Definition all_gates_policy : PolicyEvaluator :=
  mkPolicyEvaluator [("version", VStr "1.0"); ("name", VStr "all-gates"); ("rules", VList []);
    ("gates", VDict [("fact_verifiability", VDict [("require_realtime_facts", VList [VStr "stock_level"]);
                                                   ("verifiable_threshold", VFloat (8 # 10))]);
                     ("uncertainty", VDict [("confidence_threshold", VFloat (8 # 10));
                                            ("stop_on_conflict", VBool true)]);
                     ("responsibility", VDict [("financial_intents", VList [VStr "refund"]);
                                               ("stop_on_sensitive", VBool true)]);
                     ("safety", VDict [("additional_illegal_keywords", VList [VStr "counterfeit"]);
                                       ("stop_on_sensitive_stop", VBool true)])])].

Definition fact_safety_pipeline : GovernancePipeline AnyGate :=
  make_pipeline [GFact default_fact_gate; GSafety default_safety_gate] None.

Definition demo_intent : Intent :=
  mkIntent "order_status" 1 [("user_input", VStr "Please send a wire transfer")].

Definition demo_evidence : Evidence :=
  mkEvidence [("verifiable_confidence", VFloat (8 # 10)); ("source", VStr "official")]
             [("confidence", VFloat (9 # 10)); ("coverage", VFloat (9 # 10))] [] [].

Definition low_fact_evidence : Evidence :=
  mkEvidence [("verifiable_confidence", VFloat (1 # 2)); ("source", VStr "official")] [] [] [].

Definition boundary_untrusted_evidence : Evidence :=
  mkEvidence [("verifiable_confidence", VFloat (7 # 10)); ("source", VStr "untrusted");
              ("freshness", VStr "stale")] [] [] [].

(** Three calls on one gate instance: the first with [all_gates_policy],
    the second with [override_policy], the third without a policy. *)
Definition override_calls : list (Intent * Context * Evidence * option PolicyEvaluator) :=
  [(calm_intent, demo_context, realtime_evidence, Some all_gates_policy);
   (demo_intent, demo_context, demo_evidence, Some override_policy);
   (ce_intent, demo_context, calm_evidence, None)].

(* ------------------------------------------------------------------ *)
(** * Properties *)

Lemma as_str_list_map (l : list string) : as_str_list (map VStr l) = Some l.
Proof. induction l as [|s l IH]; simpl; [reflexivity | now rewrite IH]. Qed.

Lemma as_str_dict_map (l : list (string * string)) :
  as_str_dict (map (fun kv => (fst kv, VStr (snd kv))) l) = Some l.
Proof. induction l as [|[k v] l IH]; simpl; [reflexivity | now rewrite IH]. Qed.

Lemma as_opt_str_val (o : option string) : as_opt_str (opt_string_val o) = Some o.
Proof. destruct o; reflexivity. Qed.

Lemma gate_decision_round_trip (gd : GateDecision) :
  exists gd', gate_decision_from_dict (gate_decision_to_dict gd) = Some gd'.
Proof.
  destruct gd as [n sa r cu is]; cbn.
  rewrite as_opt_str_val. eexists; reflexivity.
Qed.

Lemma restore_total (l : list (string * GateDecision)) acc :
  exists gds, restore_gate_decisions acc
                (map (fun kv => (fst kv, gate_decision_to_dict (snd kv))) l) = Some gds.
Proof.
  revert acc; induction l as [|[k gd] l IH]; intros acc; cbn [map restore_gate_decisions fst snd].
  - eexists; reflexivity.
  - destruct (gate_decision_round_trip gd) as [gd' E]; rewrite E. apply IH.
Qed.

(** C7: serializing a [Decision] with [to_dict] and reading it back with
    [from_dict] always succeeds and gives back the same action, rationale,
    trace id, evidence summary and gate contributions. *)
Theorem decision_round_trip (d : Decision) (fresh_trace_id now : string) :
  exists d', from_dict (to_dict d) fresh_trace_id now = Some d' /\
    d_action d' = d_action d /\ d_rationale d' = d_rationale d /\
    d_trace_id d' = d_trace_id d /\ d_evidence_summary d' = d_evidence_summary d /\
    d_gate_contributions d' = d_gate_contributions d.
Proof.
  destruct d as [a r es tid steps ts gc gds pv pn dc fg]; cbn.
  assert (Ha : action_of_value (action_value a) = Some a) by (destruct a; reflexivity).
  rewrite Ha, as_str_list_map, as_str_dict_map, !as_opt_str_val.
  destruct (restore_total gds []) as [gds' E]; rewrite E.
  eexists; repeat split.
Qed.

Ltac split_matches H :=
  repeat match type of H with
  | context[match ?c with _ => _ end] => destruct c eqn:?
  end.

Lemma py_lt_numbers (a b : pyval) :
  py_lt a b = Some true -> fmt2f_ok a = true -> fmt2f_ok b = true ->
  exists x y, py_num a = Some x /\ py_num b = Some y /\ (x < y)%Q.
Proof.
  intros H Ha Hb.
  destruct a; try discriminate Ha; destruct b; try discriminate Hb.
  all: cbn in H |- *; injection H as H; unfold Qltb in H; apply negb_true_iff in H.
  all: do 2 eexists; split; [reflexivity | split; [reflexivity|]].
  all: apply Qnot_le_lt; intro C; apply Qle_bool_iff in C; congruence.
Qed.

Ltac finish_lt :=
  match goal with
  | Hl : py_lt ?a ?b = Some true, Hf : fmt2f_ok ?a && fmt2f_ok ?b = true |- _ =>
      apply andb_true_iff in Hf as [F1 F2]; exact (py_lt_numbers a b Hl F1 F2)
  end.

(** C6: the three threshold rules compare with a strict [<].  Whenever
    the fact gate's low-confidence rule, or the uncertainty gate's
    low-confidence or low-coverage rule produced the result, the value was
    a number strictly below the threshold.  A value equal to the threshold
    therefore never triggers them. *)
Theorem thresholds_are_strict :
  (forall g intent ev a m, fact_decide g intent ev = Some (a, m) ->
     fact_low_confidence_rule m = true ->
     exists x y, py_num (evidence_get ev "facts.verifiable_confidence" (VFloat 1)) = Some x /\
                 py_num (verifiable_threshold g) = Some y /\ (x < y)%Q) /\
  (forall g ev a m, uncertainty_decide g ev = Some (a, m) ->
     uncertainty_low_confidence_rule m = true ->
     exists x y, py_num (evidence_get ev "rag.confidence" (VFloat 1)) = Some x /\
                 py_num (confidence_threshold g) = Some y /\ (x < y)%Q) /\
  (forall g ev a m, uncertainty_decide g ev = Some (a, m) ->
     uncertainty_low_coverage_rule m = true ->
     exists x y, py_num (evidence_get ev "rag.coverage" (VFloat 1)) = Some x /\
                 py_num (evidence_get ev "rag.coverage_threshold" (VFloat (8 # 10))) = Some y /\
                 (x < y)%Q).
Proof.
  split; [|split].
  - intros g intent ev a m H R. unfold fact_decide in H.
    split_matches H; try discriminate H; injection H as <- <-; try discriminate R; finish_lt.
  - intros g ev a m H R. unfold uncertainty_decide in H.
    split_matches H; try discriminate H; injection H as <- <-; try discriminate R; finish_lt.
  - intros g ev a m H R. unfold uncertainty_decide in H.
    split_matches H; try discriminate H; injection H as <- <-; try discriminate R; finish_lt.
Qed.

(** C9: when no keyword matched and [topic.harm_risk] is anything other
    than the boolean [True] (for instance [1] or a non-empty string), the
    safety gate does not stop on harm risk.  It falls through to the
    sensitive-topic rule or to the annotation. *)
Theorem safety_harm_risk_requires_true g intent ev ui :
  lowered_user_input intent = Some ui ->
  first_keyword (fraud_keywords g) ui = Some None ->
  first_keyword (illegal_keywords g) ui = Some None ->
  first_keyword (security_keywords g) ui = Some None ->
  evidence_get ev "topic.harm_risk" (VBool false) <> VBool true ->
  safety_decide g intent ev =
    Some (if truthy (stop_on_sensitive_stop g) &&
             truthy (evidence_get ev "topic.is_sensitive" (VBool false))
          then (Some STOP, SafetySensitive (intent_name intent))
          else (None, SafetyNone (intent_name intent))).
Proof.
  intros Hu Hf Hi Hs Hh.
  unfold safety_decide; rewrite Hu, Hf, Hi, Hs; unfold safety_flag_rules.
  destruct (evidence_get ev "topic.harm_risk" (VBool false)) as [|[|]| | | | |];
    try (exfalso; apply Hh; reflexivity); reflexivity.
Qed.

Lemma safety_harm_risk_requires_true_witness :
  safety_decide default_safety_gate harm_intent harm_evidence = Some (None, SafetyNone "payment_bypass").
Proof.
  rewrite (safety_harm_risk_requires_true default_safety_gate harm_intent harm_evidence "hello there");
    [reflexivity | vm_compute; reflexivity .. | vm_compute; discriminate].
Defined.

Lemma py_lt_num (a b : pyval) x y :
  py_num a = Some x -> py_num b = Some y -> py_lt a b = Some (Qltb x y).
Proof.
  intros Ha Hb; destruct a; try discriminate Ha; destruct b; try discriminate Hb;
    cbn in *; congruence.
Qed.

Lemma Qltb_false x y : (y <= x)%Q -> Qltb x y = false.
Proof. intros H; unfold Qltb; apply Qle_bool_iff in H; now rewrite H. Qed.

(** C10: take evidence that is not marked unverifiable, has a confidence at
    or above the threshold, comes from an untrusted source and is not
    realtime-dependent.  The fact gate then returns the source advisory
    without an override, whatever the freshness.  Conversely, the
    stale-facts rule fires only for a source outside the untrusted set. *)
Theorem fact_untrusted_source_returns_first g intent ev x y :
  evidence_get ev "facts.verifiable" (VBool true) <> VBool false ->
  py_num (evidence_get ev "facts.verifiable_confidence" (VFloat 1)) = Some x ->
  py_num (verifiable_threshold g) = Some y ->
  (y <= x)%Q ->
  py_in (evidence_get ev "facts.source" (VStr "unknown")) UNTRUSTED_SOURCES = true ->
  truthy (evidence_get ev "facts.requires_realtime"
            (VBool (py_in (VStr (intent_name intent)) (require_realtime_facts g)))) = false ->
  fact_decide g intent ev = Some (None, FactSourceAdvisory (evidence_get ev "facts.source" (VStr "unknown"))) /\
  (forall g' intent' ev' a f, fact_decide g' intent' ev' = Some (a, FactStale f) ->
     py_in (evidence_get ev' "facts.source" (VStr "unknown")) UNTRUSTED_SOURCES = false).
Proof.
  intros Hv Hx Hy Hle Hsrc Hrt. split.
  - unfold fact_decide.
    rewrite (py_lt_num _ _ x y Hx Hy), (Qltb_false x y Hle), Hsrc, Hrt.
    destruct (evidence_get ev "facts.verifiable" (VBool true)) as [|[|]| | | | |];
      try (exfalso; apply Hv; reflexivity); reflexivity.
  - intros g' intent' ev' a f H. unfold fact_decide in H.
    destruct (py_in (evidence_get ev' "facts.source" (VStr "unknown")) UNTRUSTED_SOURCES); [|reflexivity].
    exfalso.
    repeat match type of H with
    | context[match ?c with _ => _ end] => destruct c eqn:?
    end; try discriminate H; injection H as _ E; discriminate E.
Qed.

(** C3: the failure raised by [validate_policy_schema] carries only a
    count: its message is "Policy validation failed with n error(s)" with
    an empty path.  Two policies with different violations raise the same
    error, so the individual errors are not reported. *)
Theorem validation_error_lists_only_a_count :
  (forall p e, validate_policy_schema p = Some (ValidationRaised e) ->
     exists n, pve_message e = ("Policy validation failed with " ++ nat_to_string n ++ " error(s)")%string /\
               pve_path e = "") /\
  validate_policy_schema empty_policy = validate_policy_schema malformed_policy /\
  validate_policy_schema empty_policy =
    Some (ValidationRaised (mkPolicyValidationError "Policy validation failed with 3 error(s)" "")).
Proof.
  split; [|split; vm_compute; reflexivity].
  intros p e H. unfold validate_policy_schema in H.
  destruct (match dict_get p "rules" with
            | Some (VList rs) => validate_rules rs 0
            | Some _ => Some [RulesNotList]
            | None => Some [] end); [|discriminate H].
  match type of H with
  | context[match ?errs with [] => _ | _ :: _ => _ end] => destruct errs eqn:E
  end; [discriminate H|].
  injection H as <-. eexists; split; reflexivity.
Qed.

Lemma py_le_num (a b : pyval) x y :
  py_num a = Some x -> py_num b = Some y -> py_le a b = Some (Qle_bool x y).
Proof. intros Ha Hb; unfold py_le; now rewrite Ha, Hb. Qed.

(** C4: [between] matches a number inside a two-element range, inclusively,
    and fails whenever the condition value is a number.  The validator,
    however, reports an error for [between] with a list value.  So the
    policy [between_policy], which uses a two-element range, fails
    validation. *)
Theorem between_rejected_by_validator :
  (forall re v lo hi x y z,
     py_num lo = Some x -> py_num hi = Some y -> py_num v = Some z ->
     apply_operator re "between" v (VList [lo; hi]) = Some (Qle_bool x z && Qle_bool z y)) /\
  (forall re v e, is_number e = true -> apply_operator re "between" v e = Some false) /\
  (forall i field l, validate_operator i field "between" (VList l) =
                     [RequiresNumeric i field "between"]) /\
  validate_policy_schema between_policy =
    Some (ValidationRaised (mkPolicyValidationError "Policy validation failed with 1 error(s)" "")).
Proof.
  split; [|split; [|split]].
  - intros re v lo hi x y z Hlo Hhi Hv. unfold apply_operator; cbn -[py_le].
    assert (Hn : is_number v = true) by (destruct v; try discriminate Hv; reflexivity).
    rewrite Hn, (py_le_num lo v x z Hlo Hv), (py_le_num v hi z y Hv Hhi).
    destruct (Qle_bool x z); reflexivity.
  - intros re v e He. destruct e; try discriminate He; reflexivity.
  - intros i field l. reflexivity.
  - vm_compute. reflexivity.
Qed.

Section PipelineProperties.

Local Open Scope nat_scope.

Variable G : Type.

Variable gate_name : G -> string.

Variable gate_evaluate :
  G -> Intent -> Context -> Evidence -> option PolicyEvaluator ->
  option (G * (option DecisionAction * string)).

Variable get_config_snapshot : G -> pyval.

Variable get_input_summary : G -> Evidence -> pyval.

Local Notation eval :=
  (evaluate G gate_name gate_evaluate get_config_snapshot get_input_summary).

Local Notation run :=
  (run_gates G gate_name gate_evaluate get_config_snapshot get_input_summary).

Local Notation fold1 :=
  (fold_gate G gate_name get_config_snapshot get_input_summary).

Local Notation results := (gate_results G gate_name gate_evaluate).

Local Notation result1 := (gate_result G gate_name gate_evaluate).

Lemma dominates_lt (a b : DecisionAction) :
  dominates a b = true <-> precedence b < precedence a.
Proof. unfold dominates. apply Nat.ltb_lt. Qed.

Lemma dominates_ge (a b : DecisionAction) :
  dominates a b = false <-> precedence a <= precedence b.
Proof. unfold dominates. rewrite Nat.ltb_ge. tauto. Qed.

Lemma fold_gate_proj (ev : Evidence) (st st' : loop_state) (g : G)
    (res : option DecisionAction * string) :
  fold1 ev st g res = Some st' ->
  proj st' = step_proj (proj st) (gate_name g, res).
Proof.
  intros H. destruct res as [[a|] r]; unfold fold_gate in H.
  - destruct (dominates a (d_action (add_gate_decision (st_decision st) _ _ _ _ _))) eqn:Hd.
    + destruct (reason_token r); [|discriminate].
      injection H as <-. unfold proj, step_proj. cbn in *. rewrite Hd. reflexivity.
    + injection H as <-. unfold proj, step_proj. cbn in *. rewrite Hd. reflexivity.
  - injection H as <-. reflexivity.
Qed.

Lemma run_gates_proj intent context ev pol (gs gs' : list G) (st st' : loop_state) :
  run intent context ev pol gs st = Some (gs', st') ->
  exists rs, results intent context ev pol gs = Some rs /\
             proj st' = fold_left step_proj rs (proj st).
Proof.
  revert gs' st. induction gs as [|g gs IH]; intros gs' st; cbn.
  - intros H; injection H as <- <-. exists []. split; reflexivity.
  - unfold gate_result.
    destruct (gate_evaluate g intent context ev pol) as [[g1 res]|]; [|discriminate].
    destruct (fold1 ev st g1 res) as [st1|] eqn:Hf; cbn; [|discriminate].
    destruct (run intent context ev pol gs st1) as [[gs2 st2]|] eqn:Hr; [|discriminate].
    intros H; injection H as <- <-.
    destruct (IH gs2 st1 Hr) as [rs [Hrs Hp]].
    exists ((gate_name g1, res) :: rs). rewrite Hrs. split; [reflexivity|].
    cbn. rewrite Hp. rewrite (fold_gate_proj ev st st1 g1 res Hf). reflexivity.
Qed.

Lemma evaluate_proj p intent context ev pol t ts p' d :
  eval p intent context ev pol t ts = Some (p', d) ->
  exists rs, results intent context ev pol (gates p) = Some rs /\
    let '(a, r, w) := fold_left step_proj rs (default_action p, "No gates triggered", None) in
    d_action d = a /\ d_rationale d = r /\
    d_final_gate d = match a with ALLOW => None | _ => w end.
Proof.
  unfold evaluate.
  match goal with |- context[run _ _ _ _ _ ?s0] => set (st0 := s0) end.
  destruct (run intent context ev pol (gates p) st0) as [[gs' st]|] eqn:Hr; [|discriminate].
  intros H; injection H as _ <-.
  destruct (run_gates_proj _ _ _ _ _ _ _ _ Hr) as [rs [Hrs Hp]].
  exists rs. split; [exact Hrs|].
  assert (H0 : proj st0 = (default_action p, "No gates triggered", None))
    by (subst st0; destruct pol; reflexivity).
  rewrite H0 in Hp. rewrite <- Hp. unfold proj.
  destruct (st_decision st) as [a0 r0 es0 t0 rq0 ts0 gc0 gd0 pv0 pn0 dc0 fg0]; cbn.
  destruct a0; cbn; repeat split; reflexivity.
Qed.

Lemma step_proj_action rs s :
  fst (fst (fold_left step_proj rs s)) =
  fold_left action_join (map (fun r => fst (snd r)) rs) (fst (fst s)).
Proof.
  revert s. induction rs as [|[n [o gr]] rs IH]; intros [[a rat] w]; [reflexivity|]. cbn [fold_left map fst snd].
  rewrite IH. f_equal.
  destruct o as [b|]; unfold step_proj, action_join; [destruct (dominates b a)|]; reflexivity.
Qed.

Lemma action_join_swap a x y :
  action_join (action_join a x) y = action_join (action_join a y) x.
Proof.
  destruct a; destruct x as [[]|]; destruct y as [[]|]; reflexivity.
Qed.

Lemma action_join_perm xs ys a :
  Permutation xs ys -> fold_left action_join xs a = fold_left action_join ys a.
Proof.
  intros HP. revert a. induction HP; intros a; cbn.
  - reflexivity.
  - apply IHHP.
  - rewrite action_join_swap. reflexivity.
  - rewrite IHHP1. apply IHHP2.
Qed.

Lemma gate_results_map intent context ev pol gs rs :
  results intent context ev pol gs = Some rs <->
  map (result1 intent context ev pol) gs = map Some rs.
Proof.
  revert rs. induction gs as [|g gs IH]; intros rs; cbn.
  - split; [intros H; injection H as <-; reflexivity|].
    destruct rs; [reflexivity|discriminate].
  - destruct (result1 intent context ev pol g) as [r|]; cbn.
    + destruct (results intent context ev pol gs) as [rs1|]; cbn.
      * split.
        -- intros H; injection H as <-. cbn. f_equal. apply IH. reflexivity.
        -- destruct rs as [|r' rs']; cbn; [discriminate|].
           intros H; injection H as -> H. f_equal. f_equal.
           assert (E : Some rs1 = Some rs') by (apply IH; exact H).
           injection E as ->. reflexivity.
      * split; [discriminate|].
        destruct rs as [|r' rs']; cbn; [discriminate|].
        intros H; injection H as _ H. apply IH in H. discriminate.
    + split; [discriminate|]. destruct rs; cbn; discriminate.
Qed.

Lemma map_Some_inj {A} (l m : list A) : map Some l = map Some m -> l = m.
Proof.
  revert m. induction l as [|x l IH]; intros [|y m]; cbn; try discriminate; [reflexivity|].
  intros H; injection H as -> H. f_equal. apply IH, H.
Qed.

Lemma gate_results_perm intent context ev pol gs gs2 rs rs2 :
  Permutation gs gs2 ->
  results intent context ev pol gs = Some rs ->
  results intent context ev pol gs2 = Some rs2 ->
  Permutation rs rs2.
Proof.
  intros HP H1 H2. apply gate_results_map in H1, H2.
  assert (HP' : Permutation (map Some rs) (map Some rs2)).
  { rewrite <- H1, <- H2. apply Permutation_map, HP. }
  symmetry in HP'.
  destruct (Permutation_map_inv _ _ HP') as [l3 [E P]].
  apply map_Some_inj in E. subst l3. exact P.
Qed.

Lemma gate_results_in intent context ev pol gs rs x :
  results intent context ev pol gs = Some rs -> In x rs ->
  exists g, In g gs /\ result1 intent context ev pol g = Some x.
Proof.
  intros H Hin. apply gate_results_map in H.
  assert (Hx : In (Some x) (map (result1 intent context ev pol) gs))
    by (rewrite H; apply in_map, Hin).
  apply in_map_iff in Hx. destruct Hx as [g [Hg Hing]]. eauto.
Qed.

(** The fold keeps its state, or ends on the first proposal of the
    highest severity, which is above the initial action. *)
Lemma step_proj_first_max rs a0 r0 w0 a r w :
  fold_left step_proj rs (a0, r0, w0) = (a, r, w) ->
  (a = a0 /\ r = r0 /\ w = w0 /\
   Forall (fun x => opt_prec (fst (snd x)) <= precedence a0) rs) \/
  (exists l1 n rest,
      rs = l1 ++ (n, (Some a, r)) :: rest /\ w = Some n /\
      precedence a0 < precedence a /\
      Forall (fun x => opt_prec (fst (snd x)) < precedence a) l1 /\
      Forall (fun x => opt_prec (fst (snd x)) <= precedence a) rest).
Proof.
  revert a0 r0 w0. induction rs as [|[n [o gr]] rs IH]; intros a0 r0 w0; cbn [fold_left].
  - intros H; injection H as <- <- <-. left. repeat split; constructor.
  - destruct (step_proj (a0, r0, w0) (n, (o, gr))) as [[a1 r1] w1] eqn:Hs.
    assert (Hstep : (o = Some a1 /\ r1 = gr /\ w1 = Some n /\ precedence a0 < precedence a1) \/
                    (a1 = a0 /\ r1 = r0 /\ w1 = w0 /\ opt_prec o <= precedence a0)).
    { unfold step_proj in Hs. destruct o as [b|].
      - destruct (dominates b a0) eqn:Hd; injection Hs as <- <- <-.
        + left. apply dominates_lt in Hd. auto.
        + right. apply dominates_ge in Hd. cbn. auto.
      - injection Hs as <- <- <-. right. cbn. repeat split; lia. }
    intros H. destruct (IH a1 r1 w1 H) as [HL | HR].
    + destruct HL as [Ea [Er [Ew Hall]]]. subst a r w.
      destruct Hstep as [[Eo [Er1 [Ew1 Hlt]]] | [Ea1 [Er1 [Ew1 Hle]]]].
      * subst o r1 w1. right. exists [], n, rs. cbn. repeat split; auto.
      * subst a1 r1 w1. left. repeat split; auto.
    + destruct HR as [l1 [m [rest [Ers [Ew [Hlt [Hl1 Hrest]]]]]]].
      right. exists ((n, (o, gr)) :: l1), m, rest. cbn. rewrite Ers.
      repeat split; auto.
      * destruct Hstep as [[_ [_ [_ H1]]] | [-> _]]; lia.
      * constructor; [|exact Hl1]. cbn.
        destruct Hstep as [[-> _] | [-> [_ [_ H1]]]]; cbn; lia.
Qed.

(** C1 (amended): the final action is the most severe of the default and
    of all gate proposals: it is their [action_join], it does not depend on
    the order of the gates, and when it differs from the default it comes
    from the first gate proposing it.  Earlier gates propose something less
    severe and later gates nothing more severe, so a later proposal of equal
    severity never overrides.  When the default is kept, the rationale and
    [final_gate] are untouched. *)
Theorem pipeline_action_is_max p intent context ev pol t ts p' d :
  eval p intent context ev pol t ts = Some (p', d) ->
  exists rs,
    results intent context ev pol (gates p) = Some rs /\
    let props := map (fun r => fst (snd r)) rs in
    d_action d = fold_left action_join props (default_action p) /\
    precedence (default_action p) <= precedence (d_action d) /\
    Forall (fun o => opt_prec o <= precedence (d_action d)) props /\
    (forall gs2 p2 d2 t2 ts2,
        Permutation (gates p) gs2 ->
        eval (mkPipeline gs2 (default_action p)) intent context ev pol t2 ts2 = Some (p2, d2) ->
        d_action d2 = d_action d) /\
    (d_action d = default_action p ->
       d_rationale d = "No gates triggered" /\ d_final_gate d = None) /\
    (d_action d <> default_action p ->
       exists l1 n rest,
         rs = l1 ++ (n, (Some (d_action d), d_rationale d)) :: rest /\
         d_final_gate d = Some n /\
         Forall (fun x => opt_prec (fst (snd x)) < precedence (d_action d)) l1 /\
         Forall (fun x => opt_prec (fst (snd x)) <= precedence (d_action d)) rest).
Proof.
  intros H. destruct (evaluate_proj _ _ _ _ _ _ _ _ _ H) as [rs [Hrs Hd]].
  exists rs. split; [exact Hrs|]. cbv zeta.
  destruct (fold_left step_proj rs (default_action p, "No gates triggered", None))
    as [[a r] w] eqn:Hf.
  destruct Hd as [Ea [Er Ew]].
  assert (Hjoin : a = fold_left action_join (map (fun r => fst (snd r)) rs) (default_action p)).
  { pose proof (step_proj_action rs (default_action p, "No gates triggered", None)) as E.
    rewrite Hf in E. exact E. }
  rewrite Ea, Er, Ew.
  destruct (step_proj_first_max _ _ _ _ _ _ _ Hf) as [HL | HR].
  - destruct HL as [-> [-> [-> Hall]]].
    split; [exact Hjoin|]. split; [lia|]. split.
    { apply Forall_map. exact Hall. }
    split.
    { intros gs2 p2 d2 t2 ts2 HP H2.
      destruct (evaluate_proj _ _ _ _ _ _ _ _ _ H2) as [rs2 [Hrs2 Hd2]]. cbn in Hrs2, Hd2.
      destruct (fold_left step_proj rs2 (default_action p, "No gates triggered", None))
        as [[a2 r2] w2] eqn:Hf2.
      destruct Hd2 as [-> _].
      pose proof (step_proj_action rs2 (default_action p, "No gates triggered", None)) as E2.
      rewrite Hf2 in E2. cbn in E2. rewrite E2. etransitivity; [|symmetry; exact Hjoin].
      apply action_join_perm, Permutation_map. symmetry.
      exact (gate_results_perm _ _ _ _ _ _ _ _ HP Hrs Hrs2). }
    split.
    + intros _. split; [reflexivity|]. destruct (default_action p); reflexivity.
    + intros Hne. exfalso. apply Hne. reflexivity.
  - destruct HR as [l1 [n [rest [Ers [-> [Hlt [Hl1 Hrest]]]]]]].
    split; [exact Hjoin|]. split; [lia|]. split.
    { apply Forall_map. rewrite Ers. apply Forall_app. split.
      - eapply Forall_impl; [|exact Hl1]. intros x Hx. cbn in Hx. lia.
      - constructor; [cbn; lia|exact Hrest]. }
    split.
    { intros gs2 p2 d2 t2 ts2 HP H2.
      destruct (evaluate_proj _ _ _ _ _ _ _ _ _ H2) as [rs2 [Hrs2 Hd2]]. cbn in Hrs2, Hd2.
      destruct (fold_left step_proj rs2 (default_action p, "No gates triggered", None))
        as [[a2 r2] w2] eqn:Hf2.
      destruct Hd2 as [-> _].
      pose proof (step_proj_action rs2 (default_action p, "No gates triggered", None)) as E2.
      rewrite Hf2 in E2. cbn in E2. rewrite E2. etransitivity; [|symmetry; exact Hjoin].
      apply action_join_perm, Permutation_map. symmetry.
      exact (gate_results_perm _ _ _ _ _ _ _ _ HP Hrs Hrs2). }
    split.
    + intros E. rewrite E in Hlt. lia.
    + intros _. exists l1, n, rest. repeat split; auto.
      destruct a; [cbn in Hlt; lia| | |]; reflexivity.
Qed.

(** C2 (amended): [final_gate] is null exactly when the final action is
    ALLOW or the configured default.  With the default ALLOW this means
    exactly when the action is ALLOW.  A non-null [final_gate] names a
    configured gate that proposed the final action with the final
    rationale. *)
Theorem final_gate_none_iff p intent context ev pol t ts p' d :
  evaluate G gate_name gate_evaluate get_config_snapshot get_input_summary p intent context ev pol t ts = Some (p', d) ->
  (d_final_gate d = None <-> d_action d = ALLOW \/ d_action d = default_action p) /\
  (forall n, d_final_gate d = Some n ->
     exists g, In g (gates p) /\
       gate_result G gate_name gate_evaluate intent context ev pol g = Some (n, (Some (d_action d), d_rationale d))).
Proof.
  intros H. destruct (evaluate_proj _ _ _ _ _ _ _ _ _ H) as [rs [Hrs Hd]].
  destruct (fold_left step_proj rs (default_action p, "No gates triggered", None))
    as [[a r] w] eqn:Hf.
  destruct Hd as [Ea [Er Ew]]. rewrite Ea, Er, Ew.
  destruct (step_proj_first_max _ _ _ _ _ _ _ Hf) as [HL | HR].
  - destruct HL as [-> [-> [-> Hall]]]. split.
    + split; [intros _; right; reflexivity|]. intros _. destruct (default_action p); reflexivity.
    + intros n Hn. destruct (default_action p); discriminate Hn.
  - destruct HR as [l1 [n [rest [Ers [-> [Hlt Hl1]]]]]].
    assert (Hna : a <> ALLOW) by (intros ->; cbn in Hlt; lia).
    assert (Hw : (match a with ALLOW => None | _ => Some n end) = Some n)
      by (destruct a; [contradiction|reflexivity..]).
    rewrite Hw. split.
    + split; [discriminate|]. intros [E|E]; [contradiction|]. rewrite E in Hlt. lia.
    + intros m Hm. injection Hm as <-.
      apply (gate_results_in _ _ _ _ _ _ _ Hrs). rewrite Ers.
      apply in_or_app. right. left. reflexivity.
Qed.

Lemma fold_gate_retime ev st g res t ts :
  fold1 ev (retime_loop st t ts) g res =
  option_map (fun s => retime_loop s t ts) (fold1 ev st g res).
Proof.
  destruct res as [[a|] r]; unfold fold_gate; cbn [retime_loop st_decision winning_gate primary_gate primary_reason_type].
  - replace (d_action (add_gate_decision (retime (st_decision st) t ts) _ _ _ _ _))
      with (d_action (add_gate_decision (st_decision st) (gate_name g)
              (option_map action_value (Some a)) r
              (if truthy (get_config_snapshot g) then Some (get_config_snapshot g) else None)
              (if truthy (get_input_summary g ev) then Some (get_input_summary g ev) else None)))
      by reflexivity.
    destruct (dominates a _); [destruct (reason_token r)|]; reflexivity.
  - reflexivity.
Qed.

Lemma run_gates_retime intent context ev pol gs st t ts :
  run intent context ev pol gs (retime_loop st t ts) =
  option_map (fun '(gs', s) => (gs', retime_loop s t ts)) (run intent context ev pol gs st).
Proof.
  revert st. induction gs as [|g gs IH]; intros st; cbn; [reflexivity|].
  destruct (gate_evaluate g intent context ev pol) as [[g1 res]|]; [|reflexivity].
  rewrite fold_gate_retime. destruct (fold1 ev st g1 res) as [st1|]; cbn; [|reflexivity].
  rewrite IH. destruct (run intent context ev pol gs st1) as [[gs2 st2]|]; reflexivity.
Qed.

Lemma evaluate_retime p intent context ev pol t1 ts1 t2 ts2 :
  eval p intent context ev pol t2 ts2 =
  option_map (fun '(p', d) => (p', retime d t2 ts2)) (eval p intent context ev pol t1 ts1).
Proof.
  unfold evaluate.
  match goal with
  | |- match run _ _ _ _ _ ?s2 with _ => _ end =
       option_map _ (match run _ _ _ _ _ ?s1 with _ => _ end) =>
      set (st1 := s1); replace s2 with (retime_loop st1 t2 ts2)
        by (subst st1; destruct pol; reflexivity)
  end.
  rewrite run_gates_retime.
  destruct (run intent context ev pol (gates p) st1) as [[gs' st]|]; [|reflexivity].
  cbn. f_equal. f_equal.
  destruct (st_decision st) as [a0 r0 es0 t0 rq0 ts0 gc0 gd0 pv0 pn0 dc0 fg0]; cbn.
  destruct a0; reflexivity.
Qed.

Section Idempotent.

Hypothesis gate_evaluate_idem : forall g intent context ev pol g' res,
  gate_evaluate g intent context ev pol = Some (g', res) ->
  gate_evaluate g' intent context ev pol = Some (g', res).

Lemma run_gates_again intent context ev pol gs gs' st st' :
  run intent context ev pol gs st = Some (gs', st') ->
  run intent context ev pol gs' st = Some (gs', st').
Proof.
  revert gs' st st'. induction gs as [|g gs IH]; intros gs' st st'; cbn.
  - intros H; injection H as <- <-. reflexivity.
  - destruct (gate_evaluate g intent context ev pol) as [[g1 res]|] eqn:Hg; [|discriminate].
    destruct (fold1 ev st g1 res) as [st1|] eqn:Hf; cbn; [|discriminate].
    destruct (run intent context ev pol gs st1) as [[gs2 st2]|] eqn:Hr; [|discriminate].
    intros H; injection H as <- <-. cbn.
    rewrite (gate_evaluate_idem _ _ _ _ _ _ _ Hg), Hf. cbn. rewrite (IH _ _ _ Hr). reflexivity.
Qed.

Lemma evaluate_again p intent context ev pol t1 ts1 t2 ts2 p1 d1 :
  eval p intent context ev pol t1 ts1 = Some (p1, d1) ->
  eval p1 intent context ev pol t2 ts2 = Some (p1, retime d1 t2 ts2).
Proof.
  intros H.
  assert (H1 : eval p1 intent context ev pol t1 ts1 = Some (p1, d1)).
  { revert H. unfold evaluate.
    destruct (run intent context ev pol (gates p) _) as [[gs' st]|] eqn:Hr; [|discriminate].
    intros H; injection H as <- <-. cbn.
    rewrite (run_gates_again _ _ _ _ _ _ _ _ Hr). reflexivity. }
  rewrite (evaluate_retime p1 intent context ev pol t1 ts1 t2 ts2), H1. reflexivity.
Qed.

End Idempotent.

End PipelineProperties.

Lemma Qeq_bool_refl' q : Qeq_bool q q = true.
Proof. apply Qeq_bool_iff. reflexivity. Qed.

Lemma py_eq_refl_hashable v : hashable v = true -> py_eq v v = true.
Proof.
  destruct v; cbn; intros H; try discriminate H; try reflexivity;
    try apply Qeq_bool_refl'; apply String.eqb_refl.
Qed.

Lemma set_update_mono x s xs : py_in x s = true -> py_in x (set_update s xs) = true.
Proof.
  unfold set_update. revert s. induction xs as [|y xs IH]; intros s H; cbn; [exact H|].
  apply IH. destruct (py_in y s); [exact H|].
  unfold py_in in *. rewrite existsb_app, H. reflexivity.
Qed.

Lemma set_update_has s xs x :
  In x xs -> hashable x = true -> py_in x (set_update s xs) = true.
Proof.
  unfold set_update. revert s. induction xs as [|y xs IH]; intros s Hin Hh; [destruct Hin|].
  destruct Hin as [-> | Hin]; cbn.
  - apply set_update_mono. destruct (py_in x s) eqn:E; [exact E|].
    unfold py_in. rewrite existsb_app. cbn. rewrite py_eq_refl_hashable by exact Hh.
    apply orb_true_r.
  - apply IH; assumption.
Qed.

Lemma set_update_noop s xs : (forall x, In x xs -> py_in x s = true) -> set_update s xs = s.
Proof.
  unfold set_update. revert s. induction xs as [|y xs IH]; intros s H; cbn; [reflexivity|].
  rewrite (H y (or_introl eq_refl)). apply IH. intros x Hx. apply H. right. exact Hx.
Qed.

Lemma set_update_idem s xs :
  forallb hashable xs = true -> set_update (set_update s xs) xs = set_update s xs.
Proof.
  intros Hh. apply set_update_noop. intros x Hx. apply set_update_has; [exact Hx|].
  rewrite forallb_forall in Hh. apply Hh, Hx.
Qed.

Lemma string_chars_hashable s : forallb hashable (string_chars s) = true.
Proof. induction s as [|c s IH]; [reflexivity|exact IH]. Qed.

Lemma py_iter_hashable_ok v xs : py_iter_hashable v = Some xs -> forallb hashable xs = true.
Proof.
  destruct v; cbn; intros H; try discriminate H.
  - injection H as <-. apply string_chars_hashable.
  - destruct (forallb hashable l) eqn:E; [injection H as <-; exact E|discriminate H].
  - injection H as <-. induction d as [|kv d IH]; [reflexivity|exact IH].
Qed.

Lemma cfg_get_idem c key v : cfg_get c key (cfg_get c key v) = cfg_get c key v.
Proof. unfold cfg_get, dict_get_default. destruct (dict_get c key); reflexivity. Qed.

Lemma cfg_get_set_idem c key cur s :
  cfg_get_set c key cur = Some s -> cfg_get_set c key s = Some s.
Proof.
  unfold cfg_get_set. destruct (dict_get c key); [intros H; exact H|].
  intros H; injection H as <-. reflexivity.
Qed.

Lemma with_gate_config_idem {A} name pol (g g' : A) (update : A -> dict -> option A) :
  (forall c g1, update g c = Some g1 -> update g1 c = Some g1) ->
  with_gate_config name pol g (update g) = Some g' ->
  with_gate_config name pol g' (update g') = Some g'.
Proof.
  intros Hu. unfold with_gate_config. destruct pol as [pe|]; [|intros H; injection H as ->; reflexivity].
  destruct (get_gate_config pe name) as [cfg|]; cbn; [|discriminate].
  destruct (truthy cfg); [|intros H; injection H as ->; reflexivity].
  destruct cfg; try discriminate. apply Hu.
Qed.

Ltac idem_step :=
  match goal with
  | H : match ?c with Some _ => _ | None => None end = Some _ |- _ =>
      destruct c eqn:?; [|discriminate H]
  end.

Lemma fact_apply_policy_idem g pol g' :
  fact_apply_policy g pol = Some g' -> fact_apply_policy g' pol = Some g'.
Proof.
  unfold fact_apply_policy.
  apply (with_gate_config_idem _ _ g g' (fun g c =>
    let* rrf := cfg_get_set c "require_realtime_facts" (require_realtime_facts g) in
    Some (mkFactGate rrf (cfg_get c "verifiable_threshold" (verifiable_threshold g))
            (cfg_get c "stop_on_unverifiable" (stop_on_unverifiable g))))).
  intros c g1 H. repeat idem_step. injection H as <-. cbn.
  erewrite cfg_get_set_idem by eassumption. rewrite !cfg_get_idem. reflexivity.
Qed.

Lemma uncertainty_apply_policy_idem g pol g' :
  uncertainty_apply_policy g pol = Some g' -> uncertainty_apply_policy g' pol = Some g'.
Proof.
  unfold uncertainty_apply_policy.
  apply (with_gate_config_idem _ _ g g' (fun g c =>
    Some (mkUncertaintyGate
            (cfg_get c "confidence_threshold" (confidence_threshold g))
            (cfg_get c "stop_on_conflict" (stop_on_conflict g))
            (cfg_get c "outdated_version_days" (outdated_version_days g))))).
  intros c g1 H. injection H as <-. cbn. rewrite !cfg_get_idem. reflexivity.
Qed.

Lemma responsibility_apply_policy_idem g pol g' :
  responsibility_apply_policy g pol = Some g' -> responsibility_apply_policy g' pol = Some g'.
Proof.
  unfold responsibility_apply_policy.
  apply (with_gate_config_idem _ _ g g' (fun g c =>
    let* fin := cfg_get_set c "financial_intents" (financial_intents g) in
    let* auth := cfg_get_set c "authority_intents" (authority_intents g) in
    let* sens := cfg_get_set c "sensitive_intents" (sensitive_intents g) in
    Some (mkResponsibilityGate fin auth sens (cfg_get c "stop_on_sensitive" (stop_on_sensitive g))))).
  intros c g1 H. repeat idem_step. injection H as <-. cbn.
  do 3 (erewrite cfg_get_set_idem by eassumption). rewrite cfg_get_idem. reflexivity.
Qed.

Lemma safety_apply_policy_idem g pol g' :
  safety_apply_policy g pol = Some g' -> safety_apply_policy g' pol = Some g'.
Proof.
  unfold safety_apply_policy.
  apply (with_gate_config_idem _ _ g g' (fun g c =>
    let* additional_fraud := py_iter_hashable (cfg_get c "additional_fraud_keywords" (VList [])) in
    let* additional_illegal := py_iter_hashable (cfg_get c "additional_illegal_keywords" (VList [])) in
    Some (mkSafetyGate (set_update (fraud_keywords g) additional_fraud)
                       (set_update (illegal_keywords g) additional_illegal)
                       (security_keywords g)
                       (cfg_get c "stop_on_sensitive_stop" (stop_on_sensitive_stop g))))).
  intros c g1 H. repeat idem_step. injection H as <-.
  cbn [fraud_keywords illegal_keywords security_keywords stop_on_sensitive_stop].
  match goal with
  | E1 : py_iter_hashable _ = Some ?a, E2 : py_iter_hashable _ = Some ?b |- _ =>
      rewrite (set_update_idem _ a (py_iter_hashable_ok _ _ E1)),
        (set_update_idem _ b (py_iter_hashable_ok _ _ E2))
  end.
  rewrite cfg_get_idem. reflexivity.
Qed.

Lemma any_evaluate_idem py_str fmt2f g intent context ev pol g' res :
  any_evaluate py_str fmt2f g intent context ev pol = Some (g', res) ->
  any_evaluate py_str fmt2f g' intent context ev pol = Some (g', res).
Proof.
  destruct g as [f|u|r|s]; cbn;
    unfold fact_evaluate, uncertainty_evaluate, responsibility_evaluate, safety_evaluate.
  - destruct (fact_apply_policy f pol) as [f1|] eqn:Ha; [|discriminate].
    destruct (fact_decide f1 intent ev) as [[a m]|] eqn:Hd; cbn; [|discriminate].
    intros H; injection H as <- <-. unfold any_evaluate, fact_evaluate. rewrite (fact_apply_policy_idem _ _ _ Ha), Hd. reflexivity.
  - destruct (uncertainty_apply_policy u pol) as [u1|] eqn:Ha; [|discriminate].
    destruct (uncertainty_decide u1 ev) as [[a m]|] eqn:Hd; cbn; [|discriminate].
    intros H; injection H as <- <-. unfold any_evaluate, uncertainty_evaluate.
    rewrite (uncertainty_apply_policy_idem _ _ _ Ha), Hd. reflexivity.
  - destruct (responsibility_apply_policy r pol) as [r1|] eqn:Ha; [|discriminate].
    destruct (responsibility_decide r1 intent ev) as [[a m]|] eqn:Hd; cbn; [|discriminate].
    intros H; injection H as <- <-. unfold any_evaluate, responsibility_evaluate.
    rewrite (responsibility_apply_policy_idem _ _ _ Ha), Hd. reflexivity.
  - destruct (safety_apply_policy s pol) as [s1|] eqn:Ha; [|discriminate].
    destruct (safety_decide s1 intent ev) as [[a m]|] eqn:Hd; cbn; [|discriminate].
    intros H; injection H as <- <-. unfold any_evaluate, safety_evaluate. rewrite (safety_apply_policy_idem _ _ _ Ha), Hd. reflexivity.
Qed.

Lemma evaluate_trace_id {G} gate_name gate_evaluate get_config_snapshot get_input_summary
    (p : GovernancePipeline G) intent context ev pol t ts p' d :
  evaluate G gate_name gate_evaluate get_config_snapshot get_input_summary
    p intent context ev pol t ts = Some (p', d) ->
  d = retime d t ts.
Proof.
  intros H.
  pose proof (evaluate_retime G gate_name gate_evaluate get_config_snapshot get_input_summary
                p intent context ev pol t ts t ts) as E.
  rewrite H in E. cbn in E. injection E as E. exact E.
Qed.

(** C5: evaluate the same pipeline again, with the same policy and inputs.
    This holds on the gate instances as the first call left them, and on
    the original ones.  The decision is the same except for the trace id
    and timestamp: same action, same rationale, different trace id when
    [uuid4()] draws a different value. *)
Theorem pipeline_evaluate_repeatable py_str fmt2f p intent context ev pol t1 ts1 t2 ts2 p1 d1 :
  pipeline_evaluate py_str fmt2f p intent context ev pol t1 ts1 = Some (p1, d1) ->
  t1 <> t2 ->
  pipeline_evaluate py_str fmt2f p intent context ev pol t2 ts2 = Some (p1, retime d1 t2 ts2) /\
  pipeline_evaluate py_str fmt2f p1 intent context ev pol t2 ts2 = Some (p1, retime d1 t2 ts2) /\
  d_action (retime d1 t2 ts2) = d_action d1 /\
  d_rationale (retime d1 t2 ts2) = d_rationale d1 /\
  d_trace_id (retime d1 t2 ts2) <> d_trace_id d1.
Proof.
  intros H Ht. unfold pipeline_evaluate in *.
  split; [|split; [|split; [reflexivity|split; [reflexivity|]]]].
  - rewrite (evaluate_retime _ _ _ _ _ p intent context ev pol t1 ts1 t2 ts2), H. reflexivity.
  - apply (evaluate_again _ _ _ _ _ (any_evaluate_idem py_str fmt2f) p intent context ev pol t1 ts1).
    exact H.
  - rewrite (evaluate_trace_id _ _ _ _ _ _ _ _ _ _ _ _ _ H). cbn. intros E. apply Ht. symmetry. exact E.
Qed.

Lemma pipeline_evaluate_repeatable_witness :
  match pipeline_evaluate example_str example_fmt2f fact_safety_pipeline demo_intent demo_context
          demo_evidence (Some override_policy) "trace-1" "t0" with
  | Some (p1, d1) =>
      pipeline_evaluate example_str example_fmt2f fact_safety_pipeline demo_intent demo_context
        demo_evidence (Some override_policy) "trace-2" "t1" = Some (p1, retime d1 "trace-2" "t1") /\
      pipeline_evaluate example_str example_fmt2f p1 demo_intent demo_context
        demo_evidence (Some override_policy) "trace-2" "t1" = Some (p1, retime d1 "trace-2" "t1") /\
      d_action (retime d1 "trace-2" "t1") = d_action d1 /\
      d_rationale (retime d1 "trace-2" "t1") = d_rationale d1 /\
      d_trace_id (retime d1 "trace-2" "t1") <> d_trace_id d1
  | None => False
  end.
Proof.
  destruct (pipeline_evaluate example_str example_fmt2f fact_safety_pipeline demo_intent demo_context
              demo_evidence (Some override_policy) "trace-1" "t0") as [[p1 d1]|] eqn:E.
  - exact (pipeline_evaluate_repeatable example_str example_fmt2f fact_safety_pipeline demo_intent
             demo_context demo_evidence (Some override_policy) "trace-1" "t0" "trace-2" "t1" p1 d1
             E ltac:(discriminate)).
  - vm_compute in E. discriminate E.
Defined.

Lemma truthy_dict_false c : truthy (VDict c) = false -> c = [].
Proof. destruct c; [reflexivity|discriminate]. Qed.

Lemma with_gate_config_cases {A} (name : string) (pol : option PolicyEvaluator) (g g1 : A)
    (update : dict -> option A) :
  with_gate_config name pol g update = Some g1 ->
  (g1 = g /\ forall key, supplied name key pol = None) \/
  (exists c, update c = Some g1 /\ forall key, supplied name key pol = dict_get c key).
Proof.
  unfold with_gate_config, supplied. destruct pol as [pe|].
  - destruct (get_gate_config pe name) as [cfg|]; cbn; [|discriminate].
    destruct (truthy cfg) eqn:Ht.
    + destruct cfg as [| | | | | |c]; try discriminate.
      intros H. right. exists c. split; [exact H | reflexivity].
    + intros H; injection H as <-. left. split; [reflexivity|].
      intros key. destruct cfg as [| | | | | |c]; try reflexivity.
      apply truthy_dict_false in Ht. subst. reflexivity.
  - intros H; injection H as <-. left. split; reflexivity.
Qed.

(** One call, one field: the field after the call is [upd pol] applied
    to the field before it. *)
Lemma run_calls_field {A R B}
    (eval : A -> Intent -> Context -> Evidence -> option PolicyEvaluator -> option (A * R))
    (f : A -> B) (upd : option PolicyEvaluator -> B -> B) :
  (forall g intent context ev pol g1 r,
     eval g intent context ev pol = Some (g1, r) -> f g1 = upd pol (f g)) ->
  forall calls g g', run_calls eval g calls = Some g' ->
  f g' = fold_left (fun acc pol => upd pol acc) (call_policies calls) (f g).
Proof.
  intros Hstep calls. induction calls as [|[[[intent context] ev] pol] calls IH]; intros g g'; cbn.
  - intros H; injection H as <-. reflexivity.
  - destruct (eval g intent context ev pol) as [[g1 r]|] eqn:E; [|discriminate].
    intros H. rewrite (IH g1 g' H), (Hstep _ _ _ _ _ _ _ E). reflexivity.
Qed.

Lemma cfg_get_supplied (c : dict) key cur :
  cfg_get c key cur = match dict_get c key with Some v => v | None => cur end.
Proof. reflexivity. Qed.

Lemma cfg_get_set_supplied (c : dict) key cur s :
  cfg_get_set c key cur = Some s ->
  s = match dict_get c key with
      | Some v => match py_set v with Some s' => s' | None => cur end
      | None => cur
      end.
Proof.
  unfold cfg_get_set. destruct (dict_get c key); [|intros H; injection H as <-; reflexivity].
  intros H; rewrite H; reflexivity.
Qed.

Lemma iter_cfg_supplied (c : dict) key acc l :
  py_iter_hashable (cfg_get c key (VList [])) = Some l ->
  set_update acc l =
    match dict_get c key with
    | Some v => match py_iter_hashable v with Some l' => set_update acc l' | None => acc end
    | None => acc
    end.
Proof.
  unfold cfg_get, dict_get_default. destruct (dict_get c key).
  - intros H; rewrite H; reflexivity.
  - intros H; injection H as <-. reflexivity.
Qed.

Ltac gate_step H apply_policy :=
  let g1' := fresh "g1'" in
  let Ha := fresh "Ha" in
  let c := fresh "c" in
  let Hu := fresh "Hu" in
  let Hs := fresh "Hs" in
  let Eg := fresh "Eg" in
  let Hk := fresh "Hk" in
  unfold fact_evaluate, uncertainty_evaluate, responsibility_evaluate, safety_evaluate in H;
  lazymatch type of H with
  | context [apply_policy ?g ?pol] => destruct (apply_policy g pol) as [g1'|] eqn:Ha
  end; [|discriminate H];
  cbv beta iota in H;
  lazymatch type of H with
  | (match ?x with Some _ => _ | None => _ end) = _ => destruct x; [|discriminate H]
  end;
  injection H as <- _;
  unfold apply_policy in Ha;
  apply with_gate_config_cases in Ha;
  destruct Ha as [[Eg Hk] | [c [Hu Hs]]];
  [subst; rewrite ?Hk; repeat split; reflexivity | rewrite ?Hs].

Lemma fact_evaluate_fields g intent ev pol g1 r :
  fact_evaluate g intent ev pol = Some (g1, r) ->
  require_realtime_facts g1 =
    match supplied "fact_verifiability" "require_realtime_facts" pol with
    | Some v => match py_set v with Some s => s | None => require_realtime_facts g end
    | None => require_realtime_facts g end /\
  verifiable_threshold g1 =
    match supplied "fact_verifiability" "verifiable_threshold" pol with
    | Some v => v | None => verifiable_threshold g end /\
  stop_on_unverifiable g1 =
    match supplied "fact_verifiability" "stop_on_unverifiable" pol with
    | Some v => v | None => stop_on_unverifiable g end.
Proof.
  intros H. gate_step H fact_apply_policy.
  destruct (cfg_get_set c "require_realtime_facts" (require_realtime_facts g)) as [rrf|] eqn:Er;
    [|discriminate Hu].
  injection Hu as <-. cbn [require_realtime_facts verifiable_threshold stop_on_unverifiable].
  rewrite (cfg_get_set_supplied _ _ _ _ Er). repeat split; reflexivity.
Qed.

Lemma uncertainty_evaluate_fields g ev pol g1 r :
  uncertainty_evaluate g ev pol = Some (g1, r) ->
  confidence_threshold g1 =
    match supplied "uncertainty" "confidence_threshold" pol with
    | Some v => v | None => confidence_threshold g end /\
  stop_on_conflict g1 =
    match supplied "uncertainty" "stop_on_conflict" pol with
    | Some v => v | None => stop_on_conflict g end /\
  outdated_version_days g1 =
    match supplied "uncertainty" "outdated_version_days" pol with
    | Some v => v | None => outdated_version_days g end.
Proof.
  intros H. gate_step H uncertainty_apply_policy.
  injection Hu as <-. repeat split; reflexivity.
Qed.

Lemma responsibility_evaluate_fields g intent ev pol g1 r :
  responsibility_evaluate g intent ev pol = Some (g1, r) ->
  financial_intents g1 =
    match supplied "responsibility" "financial_intents" pol with
    | Some v => match py_set v with Some s => s | None => financial_intents g end
    | None => financial_intents g end /\
  authority_intents g1 =
    match supplied "responsibility" "authority_intents" pol with
    | Some v => match py_set v with Some s => s | None => authority_intents g end
    | None => authority_intents g end /\
  sensitive_intents g1 =
    match supplied "responsibility" "sensitive_intents" pol with
    | Some v => match py_set v with Some s => s | None => sensitive_intents g end
    | None => sensitive_intents g end /\
  stop_on_sensitive g1 =
    match supplied "responsibility" "stop_on_sensitive" pol with
    | Some v => v | None => stop_on_sensitive g end.
Proof.
  intros H. gate_step H responsibility_apply_policy.
  destruct (cfg_get_set c "financial_intents" (financial_intents g)) as [fin|] eqn:E1; [|discriminate Hu].
  destruct (cfg_get_set c "authority_intents" (authority_intents g)) as [auth|] eqn:E2; [|discriminate Hu].
  destruct (cfg_get_set c "sensitive_intents" (sensitive_intents g)) as [sens|] eqn:E3; [|discriminate Hu].
  injection Hu as <-. cbn [financial_intents authority_intents sensitive_intents stop_on_sensitive].
  rewrite (cfg_get_set_supplied _ _ _ _ E1), (cfg_get_set_supplied _ _ _ _ E2),
    (cfg_get_set_supplied _ _ _ _ E3).
  repeat split; reflexivity.
Qed.

Lemma safety_evaluate_fields g intent ev pol g1 r :
  safety_evaluate g intent ev pol = Some (g1, r) ->
  fraud_keywords g1 =
    match supplied "safety" "additional_fraud_keywords" pol with
    | Some v => match py_iter_hashable v with Some l => set_update (fraud_keywords g) l
                | None => fraud_keywords g end
    | None => fraud_keywords g end /\
  illegal_keywords g1 =
    match supplied "safety" "additional_illegal_keywords" pol with
    | Some v => match py_iter_hashable v with Some l => set_update (illegal_keywords g) l
                | None => illegal_keywords g end
    | None => illegal_keywords g end /\
  security_keywords g1 = security_keywords g /\
  stop_on_sensitive_stop g1 =
    match supplied "safety" "stop_on_sensitive_stop" pol with
    | Some v => v | None => stop_on_sensitive_stop g end.
Proof.
  intros H. gate_step H safety_apply_policy.
  destruct (py_iter_hashable (cfg_get c "additional_fraud_keywords" (VList []))) as [af|] eqn:E1;
    [|discriminate Hu].
  destruct (py_iter_hashable (cfg_get c "additional_illegal_keywords" (VList []))) as [ai|] eqn:E2;
    [|discriminate Hu].
  injection Hu as <-. cbn [fraud_keywords illegal_keywords security_keywords stop_on_sensitive_stop].
  rewrite <- (iter_cfg_supplied _ _ _ _ E1), <- (iter_cfg_supplied _ _ _ _ E2).
  repeat split; reflexivity.
Qed.

(** C8 (amended): across any sequence of calls on one gate instance, each
    with its own intent, context, evidence and policy, every field that a
    policy override map can set holds the value from the most recent call
    whose map supplied that key (converted by [set()] for the set fields),
    and the instance's initial value if no call supplied it.  A key absent
    from the current map keeps the value left by earlier calls, not the
    constructor's.  SafetyGate's fraud and illegal keyword sets are instead
    extended by every supplied list in turn, and its security keywords never
    change. *)
Theorem gate_override_last_supplied
    (calls : list (Intent * Context * Evidence * option PolicyEvaluator)) :
  (forall g g',
     run_calls (fun g intent context ev pol => fact_evaluate g intent ev pol) g calls = Some g' ->
     require_realtime_facts g' =
       last_supplied_set "fact_verifiability" "require_realtime_facts" (call_policies calls)
         (require_realtime_facts g) /\
     verifiable_threshold g' =
       last_supplied "fact_verifiability" "verifiable_threshold" (call_policies calls)
         (verifiable_threshold g) /\
     stop_on_unverifiable g' =
       last_supplied "fact_verifiability" "stop_on_unverifiable" (call_policies calls)
         (stop_on_unverifiable g)) /\
  (forall g g',
     run_calls (fun g intent context ev pol => uncertainty_evaluate g ev pol) g calls = Some g' ->
     confidence_threshold g' =
       last_supplied "uncertainty" "confidence_threshold" (call_policies calls) (confidence_threshold g) /\
     stop_on_conflict g' =
       last_supplied "uncertainty" "stop_on_conflict" (call_policies calls) (stop_on_conflict g) /\
     outdated_version_days g' =
       last_supplied "uncertainty" "outdated_version_days" (call_policies calls)
         (outdated_version_days g)) /\
  (forall g g',
     run_calls (fun g intent context ev pol => responsibility_evaluate g intent ev pol) g calls = Some g' ->
     financial_intents g' =
       last_supplied_set "responsibility" "financial_intents" (call_policies calls) (financial_intents g) /\
     authority_intents g' =
       last_supplied_set "responsibility" "authority_intents" (call_policies calls) (authority_intents g) /\
     sensitive_intents g' =
       last_supplied_set "responsibility" "sensitive_intents" (call_policies calls) (sensitive_intents g) /\
     stop_on_sensitive g' =
       last_supplied "responsibility" "stop_on_sensitive" (call_policies calls) (stop_on_sensitive g)) /\
  (forall g g',
     run_calls (fun g intent context ev pol => safety_evaluate g intent ev pol) g calls = Some g' ->
     fraud_keywords g' =
       accumulated_keywords "safety" "additional_fraud_keywords" (call_policies calls) (fraud_keywords g) /\
     illegal_keywords g' =
       accumulated_keywords "safety" "additional_illegal_keywords" (call_policies calls)
         (illegal_keywords g) /\
     security_keywords g' = security_keywords g /\
     stop_on_sensitive_stop g' =
       last_supplied "safety" "stop_on_sensitive_stop" (call_policies calls) (stop_on_sensitive_stop g)).
Proof.
  unfold last_supplied, last_supplied_set, accumulated_keywords.
  split; [|split; [|split]]; intros g g' H.
  - split; [|split].
    + refine (run_calls_field _ require_realtime_facts _ _ calls g g' H).
      intros ? ? ? ? ? ? ? E. exact (proj1 (fact_evaluate_fields _ _ _ _ _ _ E)).
    + refine (run_calls_field _ verifiable_threshold _ _ calls g g' H).
      intros ? ? ? ? ? ? ? E. exact (proj1 (proj2 (fact_evaluate_fields _ _ _ _ _ _ E))).
    + refine (run_calls_field _ stop_on_unverifiable _ _ calls g g' H).
      intros ? ? ? ? ? ? ? E. exact (proj2 (proj2 (fact_evaluate_fields _ _ _ _ _ _ E))).
  - split; [|split].
    + refine (run_calls_field _ confidence_threshold _ _ calls g g' H).
      intros ? ? ? ? ? ? ? E. exact (proj1 (uncertainty_evaluate_fields _ _ _ _ _ E)).
    + refine (run_calls_field _ stop_on_conflict _ _ calls g g' H).
      intros ? ? ? ? ? ? ? E. exact (proj1 (proj2 (uncertainty_evaluate_fields _ _ _ _ _ E))).
    + refine (run_calls_field _ outdated_version_days _ _ calls g g' H).
      intros ? ? ? ? ? ? ? E. exact (proj2 (proj2 (uncertainty_evaluate_fields _ _ _ _ _ E))).
  - split; [|split; [|split]].
    + refine (run_calls_field _ financial_intents _ _ calls g g' H).
      intros ? ? ? ? ? ? ? E. exact (proj1 (responsibility_evaluate_fields _ _ _ _ _ _ E)).
    + refine (run_calls_field _ authority_intents _ _ calls g g' H).
      intros ? ? ? ? ? ? ? E. exact (proj1 (proj2 (responsibility_evaluate_fields _ _ _ _ _ _ E))).
    + refine (run_calls_field _ sensitive_intents _ _ calls g g' H).
      intros ? ? ? ? ? ? ? E.
      exact (proj1 (proj2 (proj2 (responsibility_evaluate_fields _ _ _ _ _ _ E)))).
    + refine (run_calls_field _ stop_on_sensitive _ _ calls g g' H).
      intros ? ? ? ? ? ? ? E.
      exact (proj2 (proj2 (proj2 (responsibility_evaluate_fields _ _ _ _ _ _ E)))).
  - split; [|split; [|split]].
    + refine (run_calls_field _ fraud_keywords _ _ calls g g' H).
      intros ? ? ? ? ? ? ? E. exact (proj1 (safety_evaluate_fields _ _ _ _ _ _ E)).
    + refine (run_calls_field _ illegal_keywords _ _ calls g g' H).
      intros ? ? ? ? ? ? ? E. exact (proj1 (proj2 (safety_evaluate_fields _ _ _ _ _ _ E))).
    + refine (eq_trans (run_calls_field _ security_keywords (fun _ acc => acc) _ calls g g' H) _).
      * intros ? ? ? ? ? ? ? E. exact (proj1 (proj2 (proj2 (safety_evaluate_fields _ _ _ _ _ _ E)))).
      * generalize (security_keywords g). induction (call_policies calls); [reflexivity|exact IHl].
    + refine (run_calls_field _ stop_on_sensitive_stop _ _ calls g g' H).
      intros ? ? ? ? ? ? ? E.
      exact (proj2 (proj2 (proj2 (safety_evaluate_fields _ _ _ _ _ _ E)))).
Qed.

Lemma gate_override_last_supplied_witness :
  match run_calls (fun g intent context ev pol => fact_evaluate g intent ev pol)
          default_fact_gate override_calls,
        run_calls (fun g intent context ev pol => uncertainty_evaluate g ev pol)
          default_uncertainty_gate override_calls,
        run_calls (fun g intent context ev pol => responsibility_evaluate g intent ev pol)
          default_responsibility_gate override_calls,
        run_calls (fun g intent context ev pol => safety_evaluate g intent ev pol)
          default_safety_gate override_calls with
  | Some f, Some u, Some r, Some s =>
      require_realtime_facts f = [VStr "stock_level"] /\
      verifiable_threshold f = VFloat (9 # 10) /\
      stop_on_unverifiable f = VBool false /\
      confidence_threshold u = VFloat (8 # 10) /\
      stop_on_conflict u = VBool true /\
      outdated_version_days u = VInt 30 /\
      financial_intents r = [VStr "refund"] /\
      authority_intents r = authority_intents default_responsibility_gate /\
      stop_on_sensitive r = VBool true /\
      fraud_keywords s = fraud_keywords default_safety_gate ++ [VStr "wire transfer"] /\
      illegal_keywords s = illegal_keywords default_safety_gate ++ [VStr "counterfeit"] /\
      security_keywords s = security_keywords default_safety_gate /\
      stop_on_sensitive_stop s = VBool true
  | _, _, _, _ => False
  end.
Proof.
  destruct (gate_override_last_supplied override_calls) as [Hf [Hu [Hr Hs]]].
  destruct (run_calls (fun g intent context ev pol => fact_evaluate g intent ev pol)
              default_fact_gate override_calls) as [f|] eqn:Ef;
    [|vm_compute in Ef; discriminate Ef].
  destruct (run_calls (fun g intent context ev pol => uncertainty_evaluate g ev pol)
              default_uncertainty_gate override_calls) as [u|] eqn:Eu;
    [|vm_compute in Eu; discriminate Eu].
  destruct (run_calls (fun g intent context ev pol => responsibility_evaluate g intent ev pol)
              default_responsibility_gate override_calls) as [r|] eqn:Er;
    [|vm_compute in Er; discriminate Er].
  destruct (run_calls (fun g intent context ev pol => safety_evaluate g intent ev pol)
              default_safety_gate override_calls) as [s|] eqn:Es;
    [|vm_compute in Es; discriminate Es].
  destruct (Hf _ _ Ef) as [F1 [F2 F3]].
  destruct (Hu _ _ Eu) as [U1 [U2 U3]].
  destruct (Hr _ _ Er) as [R1 [R2 [R3 R4]]].
  destruct (Hs _ _ Es) as [S1 [S2 [S3 S4]]].
  rewrite F1, F2, F3, U1, U2, U3, R1, R2, R4, S1, S2, S3, S4.
  repeat split; vm_compute; reflexivity.
Defined.

(** C8 counterexample: the second policy supplies no threshold.  On a
    fresh gate its evaluation compares against the constructor's 0.7 and
    passes.  On the instance reused after [threshold_policy] it compares
    against 0.9 and restricts. *)
Lemma fact_override_default_not_restored :
  supplied "fact_verifiability" "verifiable_threshold" (Some stop_policy) = None /\
  verifiable_threshold default_fact_gate = VFloat (7 # 10) /\
  fact_evaluate default_fact_gate calm_intent realtime_evidence (Some stop_policy) =
    Some (mkFactGate [] (VFloat (7 # 10)) (VBool true),
          (None, FactVerified (VFloat (8 # 10)) (VStr "official"))) /\
  fact_evaluate default_fact_gate calm_intent realtime_evidence (Some threshold_policy) =
    Some (mkFactGate [] (VFloat (9 # 10)) (VBool false),
          (Some RESTRICT, FactLowConfidenceRealtime "order_status" (VFloat (8 # 10)) (VFloat (9 # 10)))) /\
  fact_evaluate (mkFactGate [] (VFloat (9 # 10)) (VBool false)) calm_intent realtime_evidence
    (Some stop_policy) =
    Some (mkFactGate [] (VFloat (9 # 10)) (VBool true),
          (Some RESTRICT, FactLowConfidenceRealtime "order_status" (VFloat (8 # 10)) (VFloat (9 # 10)))).
Proof. repeat split; vm_compute; reflexivity. Qed.

(** C1 counterexample: in [ce_pipeline] the first two gates propose
    RESTRICT and ESCALATE, yet the final action is STOP, from the third
    gate. *)
Lemma pipeline_two_gates_not_decisive :
  option_map (map (fun r => (fst r, fst (snd r))))
    (gate_results AnyGate any_gate_name (any_evaluate example_str example_fmt2f)
       ce_intent demo_context ce_evidence None (gates ce_pipeline)) =
    Some [("uncertainty", Some RESTRICT); ("responsibility", Some ESCALATE); ("safety", Some STOP)] /\
  option_map (fun r => d_action (snd r))
    (pipeline_evaluate example_str example_fmt2f ce_pipeline ce_intent demo_context ce_evidence
       None "trace-1" "t0") = Some STOP.
Proof. split; vm_compute; reflexivity. Qed.

Lemma pipeline_action_is_max_witness :
  match evaluate AnyGate any_gate_name (any_evaluate example_str example_fmt2f)
            any_config_snapshot any_input_summary ce_pipeline ce_intent demo_context ce_evidence
          None "trace-1" "t0" with
  | Some (p', d) =>
      exists rs,
        gate_results AnyGate any_gate_name (any_evaluate example_str example_fmt2f)
          ce_intent demo_context ce_evidence None (gates ce_pipeline) = Some rs /\
        d_action d = fold_left action_join (map (fun r => fst (snd r)) rs) ALLOW
  | None => False
  end.
Proof.
  destruct (evaluate AnyGate any_gate_name (any_evaluate example_str example_fmt2f)
            any_config_snapshot any_input_summary ce_pipeline ce_intent demo_context ce_evidence
              None "trace-1" "t0") as [[p' d]|] eqn:E.
  -     destruct (pipeline_action_is_max AnyGate any_gate_name (any_evaluate example_str example_fmt2f)
                any_config_snapshot any_input_summary ce_pipeline ce_intent demo_context ce_evidence
                None "trace-1" "t0" p' d E) as [rs [Hrs [Ha _]]].
    exists rs. exact (conj Hrs Ha).
  - vm_compute in E. discriminate E.
Defined.

(** C2 counterexample: with the default RESTRICT and no overriding gate,
    the action is RESTRICT and [final_gate] is null. *)
Lemma final_gate_null_with_restrict_default :
  option_map (fun r => (d_action (snd r), d_final_gate (snd r)))
    (pipeline_evaluate example_str example_fmt2f restrict_pipeline calm_intent demo_context
       calm_evidence None "trace-1" "t0") = Some (RESTRICT, None).
Proof. vm_compute. reflexivity. Qed.

Lemma final_gate_none_iff_witness :
  match evaluate AnyGate any_gate_name (any_evaluate example_str example_fmt2f)
            any_config_snapshot any_input_summary ce_pipeline ce_intent demo_context ce_evidence
          None "trace-1" "t0" with
  | Some (p', d) =>
      d_final_gate d = Some "safety" /\
      exists g, In g (gates ce_pipeline) /\
        gate_result AnyGate any_gate_name (any_evaluate example_str example_fmt2f)
          ce_intent demo_context ce_evidence None g = Some ("safety", (Some (d_action d), d_rationale d))
  | None => False
  end.
Proof.
  destruct (evaluate AnyGate any_gate_name (any_evaluate example_str example_fmt2f)
            any_config_snapshot any_input_summary ce_pipeline ce_intent demo_context ce_evidence
              None "trace-1" "t0") as [[p' d]|] eqn:E.
  - assert (Hf : d_final_gate d = Some "safety").
    { vm_compute in E. injection E as _ <-. reflexivity. }
    split; [exact Hf|].
    exact (proj2 (final_gate_none_iff AnyGate any_gate_name (any_evaluate example_str example_fmt2f)
                    any_config_snapshot any_input_summary ce_pipeline ce_intent demo_context ce_evidence
                    None "trace-1" "t0" p' d E) "safety" Hf).
  - vm_compute in E. discriminate E.
Defined.

Lemma thresholds_are_strict_witness :
  fact_decide default_fact_gate calm_intent low_fact_evidence =
    Some (None, FactLowConfidence (VFloat (1 # 2)) (VFloat (7 # 10))) /\
  exists x y, py_num (evidence_get low_fact_evidence "facts.verifiable_confidence" (VFloat 1)) = Some x /\
              py_num (verifiable_threshold default_fact_gate) = Some y /\ (x < y)%Q.
Proof.
  assert (H : fact_decide default_fact_gate calm_intent low_fact_evidence =
                Some (None, FactLowConfidence (VFloat (1 # 2)) (VFloat (7 # 10))))
    by (vm_compute; reflexivity).
  split; [exact H|].
  exact (proj1 thresholds_are_strict default_fact_gate calm_intent low_fact_evidence _ _ H
           ltac:(vm_compute; reflexivity)).
Defined.

Lemma fact_untrusted_source_returns_first_witness :
  fact_decide default_fact_gate calm_intent boundary_untrusted_evidence =
    Some (None, FactSourceAdvisory (VStr "untrusted")).
Proof.
  exact (proj1 (fact_untrusted_source_returns_first default_fact_gate calm_intent
                  boundary_untrusted_evidence (7 # 10) (7 # 10)
                  ltac:(vm_compute; discriminate) ltac:(vm_compute; reflexivity)
                  ltac:(vm_compute; reflexivity) (Qle_refl _) ltac:(vm_compute; reflexivity)
                  ltac:(vm_compute; reflexivity))).
Defined.
